(** * Tax Intelligence front end: conversation and session-resilience layer

  A shallow embedding of the client-side core of the React front end:
  - [services/api.js]: the axios interceptors, [handleAPIError],
    [withRateLimit] and [withRetry];
  - [services/SessionContext.js], [services/AuthContext.js],
    [services/LanguageContext.js]: the three context providers;
  - [components/ChatInterface.js] and [components/MessageBubble.js]: the
    conversation state machine and the feedback buttons.

  React state is modelled by records, event handlers by functions from
  state to state, and the outside world (clock readings, timers, the
  answering service) by explicit arguments and traces. *)

From Stdlib Require Import ZArith List String Ascii Bool Lia.
Import ListNotations.

Set Implicit Arguments.

(** ** JavaScript strings *)

Module JS.

(** A JavaScript string is a sequence of UTF-16 code units. *)
Definition str : Type := list N.

(** String literals of the source that are plain ASCII. *)
Definition lit (s : string) : str :=
  List.map N_of_ascii (list_ascii_of_string s).

(** ECMAScript WhiteSpace and LineTerminator code points, the ones
    [String.prototype.trim] strips. *)
Definition isWhiteSpace (c : N) : bool :=
  ((9 <=? c) && (c <=? 13) ||
   (c =? 32) || (c =? 160) || (c =? 5760) ||
   ((8192 <=? c) && (c <=? 8202)) ||
   (c =? 8232) || (c =? 8233) || (c =? 8239) || (c =? 8287) ||
   (c =? 12288) || (c =? 65279))%N.

Fixpoint trimStart (s : str) : str :=
  match s with
  | [] => []
  | c :: s' => if isWhiteSpace c then trimStart s' else s
  end.

Definition trimEnd (s : str) : str := rev (trimStart (rev s)).

Definition trim (s : str) : str := trimEnd (trimStart s).

(** Truthiness of a string: only the empty string is falsy. *)
Definition truthy (s : str) : bool :=
  match s with [] => false | _ :: _ => true end.

(** [a || b] where [a] is a string. *)
Definition or (a b : str) : str := if truthy a then a else b.

(** [a || b] where [a] is a property that may be undefined. *)
Definition or_undef (a : option str) (b : str) : str :=
  match a with
  | Some s => or s b
  | None => b
  end.

(** [s.startsWith(p)] *)
Fixpoint startsWith (s p : str) : bool :=
  match p, s with
  | [], _ => true
  | _ :: _, [] => false
  | a :: p', b :: s' => (a =? b)%N && startsWith s' p'
  end.

(** The input holds nothing but white space (possibly nothing at all). *)
Definition blank (s : str) : Prop := Forall (fun c => isWhiteSpace c = true) s.

(** Outcome of evaluating an expression that may throw. *)
Inductive completion (A E : Type) : Type :=
| Return (a : A)
| Throw (e : E).
Arguments Return {A E} a.
Arguments Throw {A E} e.

End JS.

Notation "'js' s" := (JS.lit s%string) (at level 9, s at level 0, only parsing).

Arguments JS.lit : simpl never.

(** ** [services/api.js] *)

Module Api.

Local Open Scope Z_scope.

(** *** Failures of a request

    What axios rejects with: [error.response] is present when the server
    answered with a status outside 2xx, [error.request] when the request
    went out and nothing came back. *)

(** [error.response.data]: [null]/[undefined], or a value whose [message]
    property is a string or is missing. *)
Inductive ResponseData : Type :=
| NoData
| Data (message : option JS.str).

Record ErrorResponse : Type := {
  status : Z;
  data : ResponseData
}.

Record AxiosError : Type := {
  response : option ErrorResponse;
  request : bool;
  message : option JS.str
}.

Inductive Exception : Type := TypeError.

(** [data.message]: reading a property of [null]/[undefined] throws. *)
Definition data_message (d : ResponseData) : JS.completion (option JS.str) Exception :=
  match d with
  | NoData => JS.Throw TypeError
  | Data m => JS.Return m
  end.

(** *** [handleAPIError] *)

Definition handleAPIError (error : AxiosError) : JS.completion JS.str Exception :=
  match response error with
  | Some r =>
      let fromPayload (fallback : JS.str) :=
        match data_message (data r) with
        | JS.Return m => JS.Return (JS.or_undef m fallback)
        | JS.Throw e => JS.Throw e
        end in
      if status r =? 400 then
        fromPayload (js "Invalid request. Please check your input.")
      else if status r =? 401 then
        JS.Return (js "Authentication required. Please log in.")
      else if status r =? 403 then
        JS.Return (js "Access denied. You do not have permission to perform this action.")
      else if status r =? 404 then
        JS.Return (js "The requested resource was not found.")
      else if status r =? 429 then
        JS.Return (js "Too many requests. Please wait a moment and try again.")
      else if status r =? 500 then
        JS.Return (js "Server error. Please try again later.")
      else
        fromPayload (js "An unexpected error occurred.")
  | None =>
      if request error then
        JS.Return (js "Network error. Please check your connection and try again.")
      else
        JS.Return (JS.or_undef (message error) (js "An unexpected error occurred."))
  end.

(** The statuses that [handleAPIError] answers with a fixed sentence. *)
Definition fixed_message (s : Z) : option JS.str :=
  if s =? 401 then Some (js "Authentication required. Please log in.")
  else if s =? 403 then
    Some (js "Access denied. You do not have permission to perform this action.")
  else if s =? 404 then Some (js "The requested resource was not found.")
  else if s =? 429 then
    Some (js "Too many requests. Please wait a moment and try again.")
  else None.

(** The sentence used when the payload carries no message. *)
Definition generic_message (s : Z) : JS.str :=
  if s =? 400 then js "Invalid request. Please check your input."
  else js "An unexpected error occurred.".

Definition is4xx (s : Z) : bool := (400 <=? s) && (s <? 500).

(** *** [withRetry] *)

(** [error.response?.status >= 400 && error.response?.status < 500]; a
    failure without a response compares [undefined] and is not a client
    error. *)
Definition isClientError (error : AxiosError) : bool :=
  match response error with
  | Some r => (400 <=? status r) && (status r <? 500)
  | None => false
  end.

Definition isServerError (error : AxiosError) : bool :=
  match response error with
  | Some r => (500 <=? status r) && (status r <? 600)
  | None => false
  end.

Section WithRetry.

(** The world the wrapped call runs in, and the value it resolves with. *)
Variables W R : Type.

(** [await apiCall(...args)]: resolves with a value or rejects. *)
Variable apiCall : W -> (R + AxiosError) * W.

(** [await new Promise(resolve => setTimeout(resolve, ms))] *)
Variable setTimeout : Z -> W -> W.

Variables maxRetries delay : Z.

(** The [for] loop, entered with [attempt] and [remaining] iterations to
    go; it ends by returning a value or by throwing. The thrown value is
    [lastError], which is still [undefined] ([None]) when the loop body
    never ran. *)
Fixpoint retryLoop (remaining : nat) (attempt : Z) (lastError : option AxiosError)
  (w : W) : (R + option AxiosError) * W :=
  match remaining with
  | O => (inr lastError, w)
  | S remaining' =>
      match apiCall w with
      | (inl r, w1) => (inl r, w1)
      | (inr error, w1) =>
          if isClientError error then (inr (Some error), w1)
          else
            let w2 :=
              if attempt <? maxRetries
              then setTimeout (delay * 2 ^ (attempt - 1)) w1
              else w1 in
            retryLoop remaining' (attempt + 1) (Some error) w2
      end
  end.

(** [for (let attempt = 1; attempt <= maxRetries; attempt++)] runs
    [maxRetries] times, and not at all when [maxRetries < 1]. *)
Definition withRetry (w : W) : (R + option AxiosError) * W :=
  retryLoop (Z.to_nat maxRetries) 1 None w.

End WithRetry.

(** A world for observing the wrapper: the wrapped call answers its
    [k]-th invocation (counted from 0) with [script k]; every invocation
    and every timer is written to a timeline. *)
Inductive Effect : Type :=
| Invoked (k : nat)
| Waited (ms : Z).

Record Net : Type := {
  invocations : nat;
  timeline : list Effect
}.

Definition idle : Net := {| invocations := 0; timeline := [] |}.

Definition scripted (R : Type) (script : nat -> R + AxiosError) (w : Net)
  : (R + AxiosError) * Net :=
  (script (invocations w),
   {| invocations := S (invocations w);
      timeline := timeline w ++ [Invoked (invocations w)] |}).

Definition timer (ms : Z) (w : Net) : Net :=
  {| invocations := invocations w; timeline := timeline w ++ [Waited ms] |}.

(** Seen from world [w], the next [n] invocations fail, none of them
    with a client error. *)
Definition failing (R : Type) (script : nat -> R + AxiosError) (w : Net) (n : nat)
  : Prop :=
  forall k, (k < n)%nat ->
    exists e, script (invocations w + k)%nat = inr e /\ isClientError e = false.

(** The delays of a timeline, in order. *)
Fixpoint waits (t : list Effect) : list Z :=
  match t with
  | [] => []
  | Waited ms :: t' => ms :: waits t'
  | Invoked _ :: t' => waits t'
  end.

(** [n] attempts, the first being attempt number [attempt] and the
    [k]-th invocation: a timer of [delay * 2^(attempt-1)] follows each
    attempt but the last. *)
Fixpoint backoff (delay : Z) (k : nat) (attempt : Z) (n : nat) : list Effect :=
  match n with
  | O => []
  | S n' =>
      Invoked k ::
      match n' with
      | O => []
      | S _ => Waited (delay * 2 ^ (attempt - 1)) :: backoff delay (S k) (attempt + 1) n'
      end
  end.

(** *** [withRateLimit] *)

(** The closure of one wrapped function. [lastCall] is its variable of
    that name. Every call through the wrapper has an identifier; [waiting]
    holds the calls suspended at the [await], each with the time its timer
    is due, and [started] the calls handed to [apiCall], each with the
    clock reading stored in [lastCall] just before. *)
Record Limiter : Type := {
  lastCall : Z;
  waiting : list (nat * Z);
  started : list (nat * Z)
}.

(** [let lastCall = 0] *)
Definition fresh : Limiter := {| lastCall := 0; waiting := []; started := [] |}.

Definition isWaiting (id : nat) (l : Limiter) : bool :=
  existsb (fun c => Nat.eqb (fst c) id) (waiting l).

(** [lastCall = Date.now(); return apiCall(...args)], with [Date.now()]
    reading [t]. *)
Definition proceed (id : nat) (t : Z) (l : Limiter) : Limiter :=
  {| lastCall := t;
     waiting := filter (fun c => negb (Nat.eqb (fst c) id)) (waiting l);
     started := started l ++ [(id, t)] |}.

(** A call through the wrapper, up to its first suspension. [now] is
    the reading of the first [Date.now()], [now'] the reading of the second
    one, taken at once when the call is not delayed. A delayed call sets a
    timer of [delay - timeSinceLastCall], due at
    [now + (delay - timeSinceLastCall)]. *)
Definition invoke (delay : Z) (id : nat) (now now' : Z) (l : Limiter) : Limiter :=
  let timeSinceLastCall := now - lastCall l in
  if timeSinceLastCall <? delay then
    {| lastCall := lastCall l;
       waiting := waiting l ++ [(id, now + (delay - timeSinceLastCall))];
       started := started l |}
  else proceed id now' l.

(** The timer of a waiting call fires and the call resumes after its
    [await], [Date.now()] reading [t]. *)
Definition resume (id : nat) (t : Z) (l : Limiter) : Limiter :=
  if isWaiting id l then proceed id t l else l.

(** When the timer of call [id] is due, if it is waiting. *)
Definition due (id : nat) (l : Limiter) : option Z :=
  match find (fun c => Nat.eqb (fst c) id) (waiting l) with
  | Some c => Some (snd c)
  | None => None
  end.

(** A timer never fires before it is due. *)
Definition firesOnTime (id : nat) (t : Z) (l : Limiter) : Prop :=
  match due id l with
  | Some d => d <= t
  | None => True
  end.

(** *** The interceptors *)

(** [localStorage]: string keys to string values. *)
Definition Storage : Type := list (JS.str * JS.str).

Definition sameKey (k : JS.str) (e : JS.str * JS.str) : bool :=
  if list_eq_dec N.eq_dec (fst e) k then true else false.

Definition getItem (k : JS.str) (s : Storage) : option JS.str :=
  match find (sameKey k) s with
  | Some e => Some (snd e)
  | None => None
  end.

Definition removeItem (k : JS.str) (s : Storage) : Storage :=
  filter (fun e => negb (sameKey k e)) s.

Definition setItem (k v : JS.str) (s : Storage) : Storage :=
  (k, v) :: removeItem k s.

Definition tokenKey : JS.str := js "tax-intelligence-token".

(** The part of the browser the interceptors touch. [loads] counts the
    page loads caused by assigning [window.location.href]. *)
Record Browser : Type := {
  localStorage : Storage;
  pathname : JS.str;
  loads : nat
}.

(** Request interceptor: the [Authorization] header put on the outgoing
    request, if any. *)
Definition authorization (b : Browser) : option JS.str :=
  match getItem tokenKey (localStorage b) with
  | Some token => if JS.truthy token then Some (js "Bearer " ++ token) else None
  | None => None
  end.

(** [error.response?.status === 401] *)
Definition isUnauthorized (error : AxiosError) : bool :=
  match response error with
  | Some r => status r =? 401
  | None => false
  end.

(** Response interceptor, rejection branch; the error is rejected again
    unchanged. *)
Definition onResponseError (error : AxiosError) (b : Browser) : Browser :=
  if isUnauthorized error then
    let storage := removeItem tokenKey (localStorage b) in
    if JS.startsWith (pathname b) (js "/admin") then
      {| localStorage := storage; pathname := js "/admin/login"; loads := S (loads b) |}
    else
      {| localStorage := storage; pathname := pathname b; loads := loads b |}
  else b.

End Api.

(** ** [services/LanguageContext.js] *)

Module Language.

(** The fields of a translation table that the conversation logic reads. *)
Record Translations : Type := {
  welcome_message : JS.str;
  quick_eitc_eligibility : JS.str;
  quick_eitc_amount : JS.str;
  quick_requirements : JS.str;
  error_message : JS.str;
  error_response : JS.str;
  feedback_success : JS.str;
  feedback_error : JS.str
}.

Definition en : Translations := {|
  welcome_message :=
    js "Hello! I'm your Tax Intelligence Assistant. I can help you understand the Earned Income Tax Credit (EITC), check your eligibility, and answer questions about tax requirements. How can I assist you today?";
  quick_eitc_eligibility :=
    js "EITC Eligibility";
  quick_eitc_amount :=
    js "Credit Amount";
  quick_requirements :=
    js "Requirements";
  error_message :=
    js "Sorry, something went wrong. Please try again.";
  error_response :=
    js "I apologize, but I encountered an error. Please try again or contact support if the problem persists.";
  feedback_success :=
    js "Thank you for your feedback!";
  feedback_error :=
    js "Failed to submit feedback. Please try again."
|}.

Definition es : Translations := {|
  welcome_message :=
    [161%N] ++ js "Hola! Soy su Asistente de Inteligencia Fiscal. Puedo ayudarle a entender el Cr" ++ [233%N] ++ js "dito Tributario por Ingreso del Trabajo (EITC), verificar su elegibilidad y responder preguntas sobre requisitos fiscales. " ++ [191%N] ++ js "C" ++ [243%N] ++ js "mo puedo asistirle hoy?";
  quick_eitc_eligibility :=
    js "Elegibilidad EITC";
  quick_eitc_amount :=
    js "Monto del Cr" ++ [233%N] ++ js "dito";
  quick_requirements :=
    js "Requisitos";
  error_message :=
    js "Lo siento, algo sali" ++ [243%N] ++ js " mal. Por favor, int" ++ [233%N] ++ js "ntelo de nuevo.";
  error_response :=
    js "Me disculpo, pero encontr" ++ [233%N] ++ js " un error. Por favor, int" ++ [233%N] ++ js "ntelo de nuevo o contacte al soporte si el problema persiste.";
  feedback_success :=
    [161%N] ++ js "Gracias por sus comentarios!";
  feedback_error :=
    js "Error al enviar comentarios. Por favor, int" ++ [233%N] ++ js "ntelo de nuevo."
|}.

(** The own keys of the [translations] object: the two languages of
    the table. *)
Inductive Locale : Type := En | Es.

Definition code (l : Locale) : JS.str :=
  match l with En => js "en" | Es => js "es" end.

Definition sameLocale (a b : Locale) : bool :=
  match a, b with
  | En, En | Es, Es => true
  | _, _ => false
  end.

(** [translations[language]] *)
Definition translations (l : Locale) : Translations :=
  match l with En => en | Es => es end.

(** [translations[key]] for any string. [translations] is an object
    literal: besides its own two keys it answers to the property names it
    inherits from [Object.prototype], with a function (the prototype itself
    for [__proto__]), which is truthy and has none of the strings. *)
Inductive Entry : Type :=
| Table (l : Locale)
| Inherited
| Undefined.

Definition objectPrototype : list JS.str :=
  [ js "constructor"; js "hasOwnProperty"; js "isPrototypeOf";
    js "propertyIsEnumerable"; js "toLocaleString"; js "toString";
    js "valueOf"; js "__proto__"; js "__defineGetter__";
    js "__defineSetter__"; js "__lookupGetter__"; js "__lookupSetter__" ].

Definition sameString (a b : JS.str) : bool :=
  if list_eq_dec N.eq_dec a b then true else false.

Definition lookup (key : JS.str) : Entry :=
  if sameString key (js "en") then Table En
  else if sameString key (js "es") then Table Es
  else if existsb (sameString key) objectPrototype then Inherited
  else Undefined.

(** The [language] state of the provider is a string. It starts as
    [savedLanguage || 'en'], whatever was saved. *)
Definition languageKey : JS.str := js "tax-intelligence-language".

Definition initial (storage : Api.Storage) : JS.str :=
  JS.or_undef (Api.getItem languageKey storage) (js "en").

(** [changeLanguage]: the value of [language] afterwards. The guard
    lets through every key for which [translations[newLanguage]] is truthy,
    inherited ones included. *)
Definition changeLanguage (newLanguage language : JS.str) : JS.str :=
  match lookup newLanguage with
  | Undefined => language
  | _ => newLanguage
  end.

(** [availableLanguages], by code: the options that [LanguageSelector]
    draws, hence the values its [onChange] can pass to [changeLanguage]. *)
Definition availableLanguages : list Locale := [En; Es].

Arguments translations : simpl never.

End Language.

(** ** [services/SessionContext.js] *)

Module Session.

Local Open Scope Z_scope.

Record SessionData : Type := {
  conversationCount : Z;
  startTime : JS.str;
  lastActivity : JS.str
}.

Record State : Type := {
  sessionId : JS.str;
  sessionData : SessionData
}.

Definition sessionKey : JS.str := js "tax-intelligence-session-id".

(** First render of the provider. [uuid] is what [uuidv4()] returns and
    [iso] what [new Date().toISOString()] returns. *)
Definition initial (storage : Api.Storage) (uuid iso : JS.str) : State :=
  {| sessionId :=
       match Api.getItem sessionKey storage with
       | Some existingSessionId => JS.or existingSessionId uuid
       | None => uuid
       end;
     sessionData :=
       {| conversationCount := 0; startTime := iso; lastActivity := iso |} |}.

Definition createNewSession (newSessionId iso : JS.str) (s : State) : State :=
  {| sessionId := newSessionId;
     sessionData :=
       {| conversationCount := 0; startTime := iso; lastActivity := iso |} |}.

Definition updateActivity (iso : JS.str) (s : State) : State :=
  {| sessionId := sessionId s;
     sessionData :=
       {| conversationCount := conversationCount (sessionData s);
          startTime := startTime (sessionData s);
          lastActivity := iso |} |}.

Definition incrementConversationCount (iso : JS.str) (s : State) : State :=
  {| sessionId := sessionId s;
     sessionData :=
       {| conversationCount := conversationCount (sessionData s) + 1;
          startTime := startTime (sessionData s);
          lastActivity := iso |} |}.

End Session.

(** ** [services/AuthContext.js] *)

Module Auth.

Record User : Type := { email : JS.str }.

Record State : Type := {
  isAuthenticated : bool;
  user : option User;
  isLoading : bool
}.

(** The three [useState] initial values. *)
Definition initial : State :=
  {| isAuthenticated := false; user := None; isLoading := true |}.

(** The effect run once after the first render. *)
Definition mounted (storage : Api.Storage) (a : State) : State :=
  let hasToken :=
    match Api.getItem Api.tokenKey storage with
    | Some token => JS.truthy token
    | None => false
    end in
  {| isAuthenticated := if hasToken then true else isAuthenticated a;
     user := user a;
     isLoading := false |}.

Definition logout (storage : Api.Storage) (a : State) : Api.Storage * State :=
  (Api.removeItem Api.tokenKey storage,
   {| isAuthenticated := false; user := None; isLoading := isLoading a |}).

(** [login], once [adminAPI.login] has resolved with [access_token] or
    has been rejected. *)
Definition login (email : JS.str) (outcome : JS.str + Api.AxiosError)
  (storage : Api.Storage) (a : State) : Api.Storage * State :=
  match outcome with
  | inl access_token =>
      (Api.setItem Api.tokenKey access_token storage,
       {| isAuthenticated := true;
          user := Some {| email := email |};
          isLoading := isLoading a |})
  | inr _ => (storage, a)
  end.

(** The page as far as authentication goes: the browser and the state
    of the provider. *)
Record Page : Type := {
  browser : Api.Browser;
  auth : State
}.

(** Loading the page: the provider starts from its initial state and
    its effect reads the storage. *)
Definition load (b : Api.Browser) : Page :=
  {| browser := b; auth := mounted (Api.localStorage b) initial |}.

(** A rejected response passes through the interceptor. The interceptor
    has no access to the provider, whose state changes only when the
    assignment to [window.location.href] loads the page anew. *)
Definition rejected (error : Api.AxiosError) (p : Page) : Page :=
  let b := Api.onResponseError error (browser p) in
  if Nat.eqb (Api.loads b) (Api.loads (browser p))
  then {| browser := b; auth := auth p |}
  else load b.

End Auth.

(** ** [components/ChatInterface.js] and [components/MessageBubble.js] *)

Module Chat.

Local Open Scope Z_scope.

(** A message identifier is the string ['welcome'] or a number made from
    [Date.now()]; [handleFeedback] is handed whatever its caller passes. *)
Inductive MessageId : Type :=
| IdString (s : JS.str)
| IdNumber (n : Z).

Inductive Role : Type := user | assistant.

(** An entry of the log. A flag the source leaves out is read as
    [undefined], which is falsy. *)
Record Message : Type := {
  id : MessageId;
  type : Role;
  content : JS.str;
  timestamp : JS.str;
  sessionId : option JS.str;
  isWelcome : bool;
  isError : bool
}.

(** What [chatAPI.sendMessage] resolves with. *)
Record ChatResponse : Type := {
  response : JS.str;
  response_timestamp : JS.str;
  response_session_id : JS.str
}.

(** The argument of [chatAPI.sendMessage]; [context] is always [{}]. *)
Record ChatRequest : Type := {
  message : JS.str;
  session_id : JS.str;
  language : JS.str
}.

(** The argument of [feedbackAPI.submitFeedback]. *)
Record FeedbackRequest : Type := {
  feedback_session_id : JS.str;
  rating : option Z;
  feedback_text : JS.str;
  message_id : option MessageId
}.

Inductive Toast : Type :=
| ToastError (text : JS.str)
| ToastSuccess (text : JS.str).

(** The state of the component: its [useState] cells, the [isLoading]
    flag of [chatMutation], and what it has sent out so far (requests and
    toasts, oldest first). *)
Record State : Type := {
  messages : list Message;
  inputMessage : JS.str;
  showCalculator : bool;
  showFeedback : bool;
  selectedMessageId : option MessageId;
  isLoading : bool;
  chatRequests : list ChatRequest;
  feedbackRequests : list FeedbackRequest;
  toasts : list Toast
}.

(** What the component reads from the three contexts at a render. *)
Record Context : Type := {
  ctxSessionId : JS.str;
  ctxLanguage : Language.Locale
}.

Definition ctxTranslations (c : Context) : Language.Translations :=
  Language.translations (ctxLanguage c).

Definition initial : State :=
  {| messages := []; inputMessage := []; showCalculator := false;
     showFeedback := false; selectedMessageId := None; isLoading := false;
     chatRequests := []; feedbackRequests := []; toasts := [] |}.

Definition setMessages (f : list Message -> list Message) (s : State) : State :=
  {| messages := f (messages s); inputMessage := inputMessage s;
     showCalculator := showCalculator s; showFeedback := showFeedback s;
     selectedMessageId := selectedMessageId s; isLoading := isLoading s;
     chatRequests := chatRequests s; feedbackRequests := feedbackRequests s;
     toasts := toasts s |}.

Definition setInputMessage (v : JS.str) (s : State) : State :=
  {| messages := messages s; inputMessage := v;
     showCalculator := showCalculator s; showFeedback := showFeedback s;
     selectedMessageId := selectedMessageId s; isLoading := isLoading s;
     chatRequests := chatRequests s; feedbackRequests := feedbackRequests s;
     toasts := toasts s |}.

Definition setShowCalculator (v : bool) (s : State) : State :=
  {| messages := messages s; inputMessage := inputMessage s;
     showCalculator := v; showFeedback := showFeedback s;
     selectedMessageId := selectedMessageId s; isLoading := isLoading s;
     chatRequests := chatRequests s; feedbackRequests := feedbackRequests s;
     toasts := toasts s |}.

Definition setShowFeedback (v : bool) (s : State) : State :=
  {| messages := messages s; inputMessage := inputMessage s;
     showCalculator := showCalculator s; showFeedback := v;
     selectedMessageId := selectedMessageId s; isLoading := isLoading s;
     chatRequests := chatRequests s; feedbackRequests := feedbackRequests s;
     toasts := toasts s |}.

Definition setSelectedMessageId (v : option MessageId) (s : State) : State :=
  {| messages := messages s; inputMessage := inputMessage s;
     showCalculator := showCalculator s; showFeedback := showFeedback s;
     selectedMessageId := v; isLoading := isLoading s;
     chatRequests := chatRequests s; feedbackRequests := feedbackRequests s;
     toasts := toasts s |}.

Definition setLoading (v : bool) (s : State) : State :=
  {| messages := messages s; inputMessage := inputMessage s;
     showCalculator := showCalculator s; showFeedback := showFeedback s;
     selectedMessageId := selectedMessageId s; isLoading := v;
     chatRequests := chatRequests s; feedbackRequests := feedbackRequests s;
     toasts := toasts s |}.

(** [chatMutation.mutate(request)]: the request goes out and the
    mutation is loading until it settles. *)
Definition chatMutate (r : ChatRequest) (s : State) : State :=
  {| messages := messages s; inputMessage := inputMessage s;
     showCalculator := showCalculator s; showFeedback := showFeedback s;
     selectedMessageId := selectedMessageId s; isLoading := true;
     chatRequests := chatRequests s ++ [r];
     feedbackRequests := feedbackRequests s; toasts := toasts s |}.

(** [feedbackMutation.mutate(request)] *)
Definition feedbackMutate (r : FeedbackRequest) (s : State) : State :=
  {| messages := messages s; inputMessage := inputMessage s;
     showCalculator := showCalculator s; showFeedback := showFeedback s;
     selectedMessageId := selectedMessageId s; isLoading := isLoading s;
     chatRequests := chatRequests s;
     feedbackRequests := feedbackRequests s ++ [r]; toasts := toasts s |}.

Definition toast (t : Toast) (s : State) : State :=
  {| messages := messages s; inputMessage := inputMessage s;
     showCalculator := showCalculator s; showFeedback := showFeedback s;
     selectedMessageId := selectedMessageId s; isLoading := isLoading s;
     chatRequests := chatRequests s; feedbackRequests := feedbackRequests s;
     toasts := toasts s ++ [t] |}.

(** *** The welcome effect, with dependencies [[language, translations]] *)

Definition welcomeMessage (c : Context) (iso : JS.str) : Message :=
  {| id := IdString (js "welcome");
     type := assistant;
     content := Language.welcome_message (ctxTranslations c);
     timestamp := iso;
     sessionId := None;
     isWelcome := true;
     isError := false |}.

Definition welcomeEffect (c : Context) (iso : JS.str) (s : State) : State :=
  setMessages (fun _ => [welcomeMessage c iso]) s.

(** *** [chatMutation] *)

Definition assistantMessage (r : ChatResponse) (now : Z) : Message :=
  {| id := IdNumber (now + 1);
     type := assistant;
     content := response r;
     timestamp := response_timestamp r;
     sessionId := Some (response_session_id r);
     isWelcome := false;
     isError := false |}.

Definition onSuccess (r : ChatResponse) (now : Z) (s : State) : State :=
  setMessages (fun prev => prev ++ [assistantMessage r now]) s.

Definition errorMessage (c : Context) (now : Z) (iso : JS.str) : Message :=
  {| id := IdNumber (now + 1);
     type := assistant;
     content :=
       JS.or (Language.error_response (ctxTranslations c))
         (js "I apologize, but I encountered an error. Please try again or contact support if the problem persists.");
     timestamp := iso;
     sessionId := None;
     isWelcome := false;
     isError := true |}.

Definition onError (c : Context) (now : Z) (iso : JS.str) (s : State) : State :=
  setMessages (fun prev => prev ++ [errorMessage c now iso])
    (toast
       (ToastError
          (JS.or (Language.error_message (ctxTranslations c))
             (js "Sorry, something went wrong. Please try again.")))
       s).

(** The mutation settles: react-query runs the callback and the
    mutation is no longer loading. *)
Definition resolved (r : ChatResponse) (now : Z) (s : State) : State :=
  setLoading false (onSuccess r now s).

Definition rejected (c : Context) (now : Z) (iso : JS.str) (s : State) : State :=
  setLoading false (onError c now iso s).

(** *** [feedbackMutation] *)

Definition onFeedbackSuccess (c : Context) (s : State) : State :=
  setShowFeedback false
    (toast
       (ToastSuccess
          (JS.or (Language.feedback_success (ctxTranslations c))
             (js "Thank you for your feedback!")))
       s).

Definition onFeedbackError (c : Context) (s : State) : State :=
  toast
    (ToastError
       (JS.or (Language.feedback_error (ctxTranslations c))
          (js "Failed to submit feedback. Please try again.")))
    s.

(** *** The handlers *)

Definition userMessage (now : Z) (iso : JS.str) (s : State) : Message :=
  {| id := IdNumber now;
     type := user;
     content := JS.trim (inputMessage s);
     timestamp := iso;
     sessionId := None;
     isWelcome := false;
     isError := false |}.

Definition handleSendMessage (c : Context) (now : Z) (iso : JS.str) (s : State) : State :=
  if negb (JS.truthy (JS.trim (inputMessage s))) || isLoading s then s
  else
    let userMessage := userMessage now iso s in
    chatMutate
      {| message := content userMessage;
         session_id := ctxSessionId c;
         language := Language.code (ctxLanguage c) |}
      (setInputMessage []
         (setMessages (fun prev => prev ++ [userMessage]) s)).

Inductive Action : Type :=
| eitc_eligibility
| eitc_amount
| calculator
| requirements
| otherAction.

Definition handleQuickAction (c : Context) (action : Action) (s : State) : State :=
  match action with
  | eitc_eligibility =>
      setInputMessage
        (JS.or (Language.quick_eitc_eligibility (ctxTranslations c))
           (js "Am I eligible for the Earned Income Tax Credit?")) s
  | eitc_amount =>
      setInputMessage
        (JS.or (Language.quick_eitc_amount (ctxTranslations c))
           (js "How much EITC can I receive?")) s
  | calculator => setShowCalculator true s
  | requirements =>
      setInputMessage
        (JS.or (Language.quick_requirements (ctxTranslations c))
           (js "What are the EITC requirements?")) s
  | otherAction => s
  end.

(** [if (rating)]: [undefined] and [0] are falsy. *)
Definition truthyRating (rating : option Z) : bool :=
  match rating with
  | Some r => negb (r =? 0)
  | None => false
  end.

Definition handleFeedback (c : Context) (messageId : MessageId) (rating : option Z)
  (s : State) : State :=
  let s := setSelectedMessageId (Some messageId) s in
  if truthyRating rating then
    feedbackMutate
      {| feedback_session_id := ctxSessionId c;
         rating := rating;
         feedback_text := [];
         message_id := Some messageId |}
      s
  else setShowFeedback true s.

(** [onSubmit] of the feedback modal. *)
Definition submitDetailed (c : Context) (rating : option Z) (text : JS.str)
  (s : State) : State :=
  feedbackMutate
    {| feedback_session_id := ctxSessionId c;
       rating := rating;
       feedback_text := text;
       message_id := selectedMessageId s |}
    s.

(** *** [MessageBubble]: the calls of [onFeedback] its buttons can make *)

Definition feedbackButtons (m : Message) : list (MessageId * option Z) :=
  let isUser := match type m with user => true | assistant => false end in
  if negb isUser && negb (isWelcome m) && negb (isError m)
  then [(id m, Some 5); (id m, Some 1)]
  else [].

(** The rating buttons on screen: one bubble per message of the log. *)
Definition rendered (s : State) : list (MessageId * option Z) :=
  flat_map feedbackButtons (messages s).

End Chat.

(** ** The page: [App.js] puts the chat under the three providers *)

Module App.

Local Open Scope Z_scope.

(** The page, followed while the language in use is one of the two
    of the table. react-query keeps with each mutation the callbacks of
    the render that called [mutate()]; what those closures read is the
    context of that render: [chatCallbacks] for the chat request in flight,
    [feedbackCallbacks] for the feedback requests in flight, oldest
    first. *)
Record State : Type := {
  chat : Chat.State;
  language : Language.Locale;
  session : Session.State;
  chatCallbacks : Chat.Context;
  feedbackCallbacks : list Chat.Context
}.

Definition context (a : State) : Chat.Context :=
  {| Chat.ctxSessionId := Session.sessionId (session a);
     Chat.ctxLanguage := language a |}.

Definition withChat (f : Chat.Context -> Chat.State -> Chat.State) (a : State) : State :=
  {| chat := f (context a) (chat a);
     language := language a;
     session := session a;
     chatCallbacks := chatCallbacks a;
     feedbackCallbacks := feedbackCallbacks a |}.

(** [chatMutation.mutate] and [feedbackMutation.mutate] were called in
    the render with context [c]. *)
Definition chatMutated (c : Chat.Context) (a : State) : State :=
  {| chat := chat a;
     language := language a;
     session := session a;
     chatCallbacks := c;
     feedbackCallbacks := feedbackCallbacks a |}.

Definition feedbackMutated (c : Chat.Context) (a : State) : State :=
  {| chat := chat a;
     language := language a;
     session := session a;
     chatCallbacks := chatCallbacks a;
     feedbackCallbacks := feedbackCallbacks a ++ [c] |}.

(** The feedback request at position [k] among those in flight settles:
    its own callback runs. *)
Definition feedbackSettled (k : nat)
  (callback : Chat.Context -> Chat.State -> Chat.State) (a : State) : State :=
  match nth_error (feedbackCallbacks a) k with
  | Some c =>
      {| chat := callback c (chat a);
         language := language a;
         session := session a;
         chatCallbacks := chatCallbacks a;
         feedbackCallbacks :=
           firstn k (feedbackCallbacks a) ++ skipn (S k) (feedbackCallbacks a) |}
  | None => a
  end.

(** What can happen to the page: the user's actions on the rendered
    components and the settling of the two mutations. Clock readings
    ([Date.now()] as [now], [new Date().toISOString()] as [iso]) come with
    the event. [SelectLanguage] is the [onChange] of the language selector,
    with the option picked. *)
Inductive Event : Type :=
| SelectLanguage (picked : Language.Locale) (iso : JS.str)
| TypeInput (text : JS.str)
| Submit (now : Z) (iso : JS.str)
| ChatResolved (r : Chat.ChatResponse) (now : Z)
| ChatRejected (now : Z) (iso : JS.str)
| QuickAction (action : Chat.Action)
| Feedback (messageId : Chat.MessageId) (rating : option Z)
| SubmitDetailed (rating : option Z) (text : JS.str)
| FeedbackResolved (k : nat)
| FeedbackRejected (k : nat)
| CloseCalculator
| CloseFeedback.

(** The page after the first render and its effects, for a provider
    that starts in a language of the table ([Language.initial] reads it
    from storage). *)
Definition mounted (session : Session.State) (language : Language.Locale)
  (iso : JS.str) : State :=
  withChat (fun c => Chat.welcomeEffect c iso)
    {| chat := Chat.initial;
       language := language;
       session := session;
       chatCallbacks :=
         {| Chat.ctxSessionId := Session.sessionId session;
            Chat.ctxLanguage := language |};
       feedbackCallbacks := [] |}.

(** The language selector: [changeLanguage(e.target.value)] with the
    code of the option picked, an own key of [translations], so the guard
    passes and [language] is set. The welcome effect runs again only when
    [language] has changed. The mutations in flight keep their
    callbacks. *)
Definition selectLanguage (picked : Language.Locale) (iso : JS.str) (a : State) : State :=
  if Language.sameLocale picked (language a) then a
  else
    withChat (fun c => Chat.welcomeEffect c iso)
      {| chat := chat a;
         language := picked;
         session := session a;
         chatCallbacks := chatCallbacks a;
         feedbackCallbacks := feedbackCallbacks a |}.

Definition step (e : Event) (a : State) : State :=
  match e with
  | SelectLanguage picked iso => selectLanguage picked iso a
  | TypeInput text => withChat (fun _ => Chat.setInputMessage text) a
  | Submit now iso =>
      let a' := withChat (fun c => Chat.handleSendMessage c now iso) a in
      if negb (Chat.isLoading (chat a)) && Chat.isLoading (chat a')
      then chatMutated (context a) a'
      else a'
  | ChatResolved r now =>
      if Chat.isLoading (chat a)
      then withChat (fun _ => Chat.resolved r now) a
      else a
  | ChatRejected now iso =>
      if Chat.isLoading (chat a)
      then withChat (fun _ => Chat.rejected (chatCallbacks a) now iso) a
      else a
  | QuickAction action => withChat (fun c => Chat.handleQuickAction c action) a
  | Feedback messageId rating =>
      let a' := withChat (fun c => Chat.handleFeedback c messageId rating) a in
      if Chat.truthyRating rating then feedbackMutated (context a) a' else a'
  | SubmitDetailed rating text =>
      feedbackMutated (context a)
        (withChat (fun c => Chat.submitDetailed c rating text) a)
  | FeedbackResolved k => feedbackSettled k Chat.onFeedbackSuccess a
  | FeedbackRejected k => feedbackSettled k Chat.onFeedbackError a
  | CloseCalculator => withChat (fun _ => Chat.setShowCalculator false) a
  | CloseFeedback => withChat (fun _ => Chat.setShowFeedback false) a
  end.

Definition run (es : list Event) (a : State) : State :=
  fold_left (fun a e => step e a) es a.

Definition log (a : State) : list Chat.Message := Chat.messages (chat a).

(** The two events that settle the chat request in flight. *)
Definition isSettlement (e : Event) : bool :=
  match e with
  | ChatResolved _ _ | ChatRejected _ _ => true
  | _ => false
  end.

(** The event that runs the welcome effect again. *)
Definition isLanguageSelection (e : Event) : bool :=
  match e with
  | SelectLanguage _ _ => true
  | _ => false
  end.

(** The log opens with the welcome message and holds no other. *)
Definition oneWelcome (l : list Chat.Message) : Prop :=
  exists w rest,
    l = w :: rest /\
    Chat.isWelcome w = true /\
    Forall (fun m => Chat.isWelcome m = false) rest.

End App.

(** ** More of [services/SessionContext.js]: the storage side *)

Module SessionStore.

Local Open Scope Z_scope.

(** The effect with dependency [[sessionId]]: the identifier is written
    to storage after the first render and after every change. *)
Definition persist (s : Session.State) (storage : Api.Storage) : Api.Storage :=
  Api.setItem Session.sessionKey (Session.sessionId s) storage.

(** Loading the page: the provider's first render and its effect. *)
Definition load (storage : Api.Storage) (uuid iso : JS.str)
  : Session.State * Api.Storage :=
  let s := Session.initial storage uuid iso in
  (s, persist s storage).

(** [createNewSession] with its own [localStorage.setItem] and the
    effect that follows the change of [sessionId]. *)
Definition rotate (newSessionId iso : JS.str) (p : Session.State * Api.Storage)
  : Session.State * Api.Storage :=
  let s := Session.createNewSession newSessionId iso (fst p) in
  (s, persist s (Api.setItem Session.sessionKey newSessionId (snd p))).

(** The two updates of the session data. *)
Inductive Update : Type :=
| Activity (iso : JS.str)
| Exchange (iso : JS.str).

Definition update (u : Update) (s : Session.State) : Session.State :=
  match u with
  | Activity iso => Session.updateActivity iso s
  | Exchange iso => Session.incrementConversationCount iso s
  end.

Definition updates (us : list Update) (s : Session.State) : Session.State :=
  fold_left (fun s u => update u s) us s.

Definition isExchange (u : Update) : bool :=
  match u with Exchange _ => true | Activity _ => false end.

End SessionStore.

(** ** More of [services/AuthContext.js]: what [login] returns, and the
    provider together with the browser *)

Module AuthPage.

(** [{ success: true }] or [{ success: false, error: ... }] *)
Record LoginResult : Type := {
  success : bool;
  error : option JS.str
}.

(** [error.response?.data?.message]: optional chaining all the way,
    so a missing response or a null payload reads as [undefined]. *)
Definition payloadMessage (e : Api.AxiosError) : option JS.str :=
  match Api.response e with
  | Some r =>
      match Api.data r with
      | Api.Data m => m
      | Api.NoData => None
      end
  | None => None
  end.

Definition loginResult (outcome : JS.str + Api.AxiosError) : LoginResult :=
  match outcome with
  | inl _ => {| success := true; error := None |}
  | inr e =>
      {| success := false;
         error := Some (JS.or_undef (payloadMessage e) (js "Login failed")) |}
  end.

Definition withStorage (storage : Api.Storage) (b : Api.Browser) : Api.Browser :=
  {| Api.localStorage := storage;
     Api.pathname := Api.pathname b;
     Api.loads := Api.loads b |}.

(** [login] and [logout] acting on the page. [adminAPI.login] goes
    through the same axios instance as every other call, so its rejection
    has passed the response interceptor by the time the [catch] of [login]
    sees it. *)
Definition login (email : JS.str) (outcome : JS.str + Api.AxiosError)
  (p : Auth.Page) : Auth.Page :=
  let p :=
    match outcome with
    | inl _ => p
    | inr error => Auth.rejected error p
    end in
  let r := Auth.login email outcome (Api.localStorage (Auth.browser p)) (Auth.auth p) in
  {| Auth.browser := withStorage (fst r) (Auth.browser p); Auth.auth := snd r |}.

Definition logout (p : Auth.Page) : Auth.Page :=
  let r := Auth.logout (Api.localStorage (Auth.browser p)) (Auth.auth p) in
  {| Auth.browser := withStorage (fst r) (Auth.browser p); Auth.auth := snd r |}.

(** The user reloads the page. *)
Definition reload (p : Auth.Page) : Auth.Page := Auth.load (Auth.browser p).

End AuthPage.

(** ** [components/FeedbackModal.js] *)

Module FeedbackModal.

Local Open Scope Z_scope.

(** The two [useState] cells of the form. *)
Record State : Type := {
  rating : Z;
  feedback : JS.str
}.

Definition initial : State := {| rating := 0; feedback := [] |}.

(** The stars drawn: [[1, 2, 3, 4, 5].map(...)]. *)
Definition stars : list Z := [1; 2; 3; 4; 5].

(** [disabled={rating === 0}] on the submit button. *)
Definition submitDisabled (s : State) : bool := rating s =? 0.

(** What the user can do on the open form. *)
Inductive Action : Type :=
| ClickStar (star : Z)
| TypeFeedback (text : JS.str)
| Submit.

(** A star can be clicked if it is drawn, the submit button if it is
    not disabled. *)
Definition offered (a : Action) (s : State) : bool :=
  match a with
  | ClickStar star => existsb (Z.eqb star) stars
  | TypeFeedback _ => true
  | Submit => negb (submitDisabled s)
  end.

(** [handleSubmit]: the argument passed to [onSubmit], and the form
    after the two resets. *)
Definition handleSubmit (s : State) : (Z * JS.str) * State :=
  ((rating s, feedback s), initial).

(** One action: the new state and what was passed to [onSubmit], if
    anything. *)
Definition act (a : Action) (s : State) : State * option (Z * JS.str) :=
  match a with
  | ClickStar star => ({| rating := star; feedback := feedback s |}, None)
  | TypeFeedback text => ({| rating := rating s; feedback := text |}, None)
  | Submit => (snd (handleSubmit s), Some (fst (handleSubmit s)))
  end.

(** A sequence of actions, each taken only if the form offers it; the
    list collects what was passed to [onSubmit], oldest first. *)
Fixpoint use (acts : list Action) (s : State) : State * list (Z * JS.str) :=
  match acts with
  | [] => (s, [])
  | a :: acts' =>
      if offered a s then
        let r := act a s in
        let rest := use acts' (fst r) in
        (fst rest,
         match snd r with
         | Some sent => sent :: snd rest
         | None => snd rest
         end)
      else use acts' s
  end.

Definition isStar (a : Action) : bool :=
  match a with ClickStar _ => true | _ => false end.

End FeedbackModal.

(** ** More of [withRateLimit]: calls made one after the other *)

Module Paced.

Local Open Scope Z_scope.

(** The clock readings of one call: the two [Date.now()] of the call
    and the reading when its timer fires, should it be delayed. *)
Record Readings : Type := {
  now : Z;
  now' : Z;
  fired : Z
}.

(** One call, run to its start before anything else happens. *)
Definition call (delay : Z) (id : nat) (r : Readings) (l : Api.Limiter) : Api.Limiter :=
  Api.resume id (fired r) (Api.invoke delay id (now r) (now' r) l).

(** Calls numbered from [id] on, each issued after the one before it
    has started. *)
Fixpoint calls (delay : Z) (id : nat) (rs : list Readings) (l : Api.Limiter)
  : Api.Limiter :=
  match rs with
  | [] => l
  | r :: rs' => calls delay (S id) rs' (call delay id r l)
  end.

(** The clock does not run backwards within a call and no timer fires
    before it is due. *)
Fixpoint punctual (delay : Z) (id : nat) (rs : list Readings) (l : Api.Limiter)
  : Prop :=
  match rs with
  | [] => True
  | r :: rs' =>
      now r <= now' r /\
      Api.firesOnTime id (fired r) (Api.invoke delay id (now r) (now' r) l) /\
      punctual delay (S id) rs' (call delay id r l)
  end.

(** Each time of the list is at least [delay] after the one before it,
    the first at least [delay] after [cursor]. *)
Fixpoint spaced (delay cursor : Z) (times : list Z) : Prop :=
  match times with
  | [] => True
  | t :: times' => cursor + delay <= t /\ spaced delay t times'
  end.

End Paced.

(** ** More of the conversation: what the rendered page offers *)

Module Screen.

Local Open Scope Z_scope.

Definition sameId (a b : Chat.MessageId) : bool :=
  match a, b with
  | Chat.IdString s, Chat.IdString t => if list_eq_dec N.eq_dec s t then true else false
  | Chat.IdNumber n, Chat.IdNumber m => n =? m
  | _, _ => false
  end.

Definition sameRating (a b : option Z) : bool :=
  match a, b with
  | Some n, Some m => n =? m
  | None, None => true
  | _, _ => false
  end.

(** An event the rendered components can produce in state [a]: a
    rating comes from a button that is drawn, and the detailed form can be
    submitted or closed only while it is shown. Everything else is always
    possible; the handlers and react-query do their own checks. *)
Definition offered (e : App.Event) (a : App.State) : bool :=
  match e with
  | App.Feedback messageId rating =>
      existsb
        (fun b => sameId (fst b) messageId && sameRating (snd b) rating)
        (Chat.rendered (App.chat a))
  | App.SubmitDetailed _ _ => Chat.showFeedback (App.chat a)
  | App.CloseFeedback => Chat.showFeedback (App.chat a)
  | App.CloseCalculator => Chat.showCalculator (App.chat a)
  | _ => true
  end.

(** The events that put text into the input. *)
Definition writesInput (e : App.Event) : bool :=
  match e with
  | App.TypeInput _ | App.QuickAction _ => true
  | _ => false
  end.

(** What a chat request may look like: a message that is not empty
    and has no white space at either end, and the identifier of the
    session. *)
Definition wellFormed (sessionId : JS.str) (r : Chat.ChatRequest) : Prop :=
  Chat.message r <> [] /\
  JS.trim (Chat.message r) = Chat.message r /\
  Chat.session_id r = sessionId.

(** What a feedback request sent from a rating button looks like. *)
Definition quick (sessionId : JS.str) (r : Chat.FeedbackRequest) : Prop :=
  Chat.feedback_text r = [] /\
  (Chat.rating r = Some 5 \/ Chat.rating r = Some 1) /\
  Chat.feedback_session_id r = sessionId /\
  exists n, Chat.message_id r = Some (Chat.IdNumber n).

(** A run in which an event that is not offered does not happen. *)
Definition use (es : list App.Event) (a : App.State) : App.State :=
  fold_left (fun a e => if offered e a then App.step e a else a) es a.

(** The messages after the welcome message are questions and replies
    in turn; the flag tells whether the last question is still open. *)
Inductive turns : list Chat.Message -> bool -> Prop :=
| turns_none : turns [] false
| turns_question (l : list Chat.Message) (m : Chat.Message) :
    turns l false ->
    Chat.type m = Chat.user ->
    turns (l ++ [m]) true
| turns_reply (l : list Chat.Message) (m : Chat.Message) :
    turns l true ->
    Chat.type m = Chat.assistant ->
    Chat.isWelcome m = false ->
    turns (l ++ [m]) false.

(** The numbers used as identifiers in a log, in order. *)
Fixpoint stamps (l : list Chat.Message) : list Z :=
  match l with
  | [] => []
  | m :: l' =>
      match Chat.id m with
      | Chat.IdNumber n => n :: stamps l'
      | Chat.IdString _ => stamps l'
      end
  end.

(** The reading of [Date.now()] that comes with an event, if any. *)
Definition reading (e : App.Event) : option Z :=
  match e with
  | App.Submit now _ => Some now
  | App.ChatResolved _ now => Some now
  | App.ChatRejected now _ => Some now
  | _ => None
  end.

(** Successive readings are at least two milliseconds apart, the
    first at least two after [last]. *)
Fixpoint apart (last : Z) (es : list App.Event) : Prop :=
  match es with
  | [] => True
  | e :: es' =>
      match reading e with
      | Some now => last + 2 <= now /\ apart now es'
      | None => apart last es'
      end
  end.

(** Every number of the list is smaller than all those after it. *)
Fixpoint ascending (l : list Z) : Prop :=
  match l with
  | [] => True
  | n :: l' => Forall (fun m => n < m) l' /\ ascending l'
  end.

End Screen.

(** * Scenarios

    Concrete inputs used further down. *)

(** A 404 whose payload says what was not found. *)
Definition notFound : Api.AxiosError :=
  {| Api.response :=
       Some {| Api.status := 404;
               Api.data := Api.Data (Some (js "No session with this id")) |};
     Api.request := true;
     Api.message := Some (js "Request failed with status code 404") |}.


(** A failure with the given status and an empty payload object. *)
Definition failure (status : Z) : Api.AxiosError :=
  {| Api.response := Some {| Api.status := status; Api.data := Api.Data None |};
     Api.request := true;
     Api.message := None |}.

Definition answer : Chat.ChatResponse :=
  {| Chat.response := js "Yes, based on...";
     Chat.response_timestamp := js "2025-01-15T10:30:00.000Z";
     Chat.response_session_id := js "3f2c9a1e-session" |}.

(** A service that answers 500 twice and then succeeds. *)
Definition flaky (k : nat) : Chat.ChatResponse + Api.AxiosError :=
  match k with
  | 0%nat | 1%nat => inr (failure 500)
  | _ => inl answer
  end.

(** A service that answers 503 every time. *)
Definition down (k : nat) : Chat.ChatResponse + Api.AxiosError :=
  inr (failure 503).

(** A service that does not know the session. *)
Definition unknownSession (k : nat) : Chat.ChatResponse + Api.AxiosError :=
  inr notFound.



(** The home page, loaded in a browser that holds a token. *)
Definition signedInAtHome : Auth.Page :=
  Auth.load
    {| Api.localStorage := [(Api.tokenKey, js "eyJhbGciOiJIUzI1NiJ9.admin")];
       Api.pathname := js "/";
       Api.loads := 0 |}.

(** The same browser on an admin page. *)
Definition signedInAtAdmin : Auth.Page :=
  Auth.load
    {| Api.localStorage := [(Api.tokenKey, js "eyJhbGciOiJIUzI1NiJ9.admin")];
       Api.pathname := js "/admin/conversations";
       Api.loads := 0 |}.

(** A first visit: nothing in storage, English selected. *)
Definition firstVisit : Session.State :=
  Session.initial [] (js "3f2c9a1e-session") (js "2025-01-15T10:29:00.000Z").

Definition home : App.State :=
  App.mounted firstVisit Language.En (js "2025-01-15T10:29:00.000Z").

(** The user asks one question and the service answers it. *)
Definition oneExchange : list App.Event :=
  [ App.TypeInput (js "Am I eligible for EITC?");
    App.Submit 1736937000000 (js "2025-01-15T10:30:00.000Z");
    App.ChatResolved answer 1736937001500 ].

Definition talked : App.State := App.run oneExchange home.

Definition question : Chat.Message :=
  {| Chat.id := Chat.IdNumber 1736937000000;
     Chat.type := Chat.user;
     Chat.content := js "Am I eligible for EITC?";
     Chat.timestamp := js "2025-01-15T10:30:00.000Z";
     Chat.sessionId := None;
     Chat.isWelcome := false;
     Chat.isError := false |}.

(** The home page with only blanks typed in, and with a request in
    flight. *)
Definition blanks : App.State :=
  App.step (App.TypeInput [32; 9; 160]%N) home.

Definition asking : App.State :=
  App.run
    [ App.TypeInput (js "Am I eligible for EITC?");
      App.Submit 1736937000000 (js "2025-01-15T10:30:00.000Z");
      App.TypeInput (js "Hello?") ]
    home.

(** The question typed in, and what else the user tries while the
    request is in flight. *)
Definition typed : App.State :=
  App.step (App.TypeInput (js "Am I eligible for EITC?")) home.

Definition impatient : list App.Event :=
  [ App.TypeInput (js "Hello?");
    App.Submit 1736937000900 (js "2025-01-15T10:30:00.900Z");
    App.QuickAction Chat.calculator;
    App.CloseCalculator ].

(** A service that answers 502 once and then refuses the request. *)
Definition refusing (k : nat) : Chat.ChatResponse + Api.AxiosError :=
  match k with
  | 0%nat => inr (failure 502)
  | _ => inr (failure 422)
  end.

(** Three calls made one after the other through a new wrapper of
    interval 1000: the second 5 ms after the first, the third two seconds
    after the second has started. *)
Definition threeCalls : list Paced.Readings :=
  [ {| Paced.now := 1700000000000; Paced.now' := 1700000000000;
       Paced.fired := 1700000000000 |};
    {| Paced.now := 1700000000005; Paced.now' := 1700000000005;
       Paced.fired := 1700000001003 |};
    {| Paced.now := 1700000003003; Paced.now' := 1700000003004;
       Paced.fired := 1700000003004 |} ]%Z.

(** A session that has seen some activity, with its storage. *)
Definition seasoned : Session.State * Api.Storage :=
  let p := SessionStore.load [] (js "3f2c9a1e-session") (js "2025-01-15T10:29:00.000Z") in
  (SessionStore.updates
     [ SessionStore.Exchange (js "2025-01-15T10:30:01.500Z");
       SessionStore.Activity (js "2025-01-15T10:31:00.000Z");
       SessionStore.Exchange (js "2025-01-15T10:32:00.000Z") ]
     (fst p),
   snd p).

(** The admin login page in a browser that holds no token. *)
Definition signedOut : Auth.Page :=
  Auth.load
    {| Api.localStorage := [(Session.sessionKey, js "3f2c9a1e-session")];
       Api.pathname := js "/admin/login";
       Api.loads := 0 |}.

(** The reply arrives at 1736937001500 and gets identifier
    1736937001501; the next question is submitted one millisecond after
    the reply. *)
Definition hasty : list App.Event :=
  oneExchange ++
  [ App.TypeInput (js "And my spouse?");
    App.Submit 1736937001501 (js "2025-01-15T10:30:01.501Z") ].
(** * Properties *)

(** ** Strings *)

Lemma trimStart_blank (s : JS.str) : JS.blank s -> JS.trimStart s = [].
Proof.
  induction 1 as [|c s Hc _ IH]; simpl.
  - reflexivity.
  - rewrite Hc. exact IH.
Qed.

Lemma trim_blank (s : JS.str) : JS.blank s -> JS.trim s = [].
Proof.
  intros H. unfold JS.trim, JS.trimEnd.
  rewrite (trimStart_blank H). reflexivity.
Qed.

Lemma or_undef_some (m fallback : JS.str) :
  m <> [] -> JS.or_undef (Some m) fallback = m.
Proof. destruct m; [congruence | reflexivity]. Qed.

Example trim_question :
  JS.trim ([9; 32] ++ js "Am I eligible for EITC? " ++ [160; 10])%N =
  js "Am I eligible for EITC?".
Proof. reflexivity. Qed.

Example trim_inner_space_kept : JS.trim (js " a b ") = js "a b".
Proof. reflexivity. Qed.

(** ** [handleAPIError] *)

Section HandleAPIError.

Local Open Scope Z_scope.

Variable error : Api.AxiosError.
Variable r : Api.ErrorResponse.
Hypothesis Hresponse : Api.response error = Some r.

Lemma handleAPIError_fixed (sentence : JS.str) :
  Api.fixed_message (Api.status r) = Some sentence ->
  Api.handleAPIError error = JS.Return sentence.
Proof.
  unfold Api.handleAPIError, Api.fixed_message. rewrite Hresponse.
  destruct (Api.status r =? 400) eqn:E400.
  - apply Z.eqb_eq in E400. rewrite E400. simpl. discriminate.
  - destruct (Api.status r =? 401); [congruence |].
    destruct (Api.status r =? 403); [congruence |].
    destruct (Api.status r =? 404); [congruence |].
    destruct (Api.status r =? 429); [congruence | discriminate].
Qed.

Lemma handleAPIError_payload (m : option JS.str) :
  Api.is4xx (Api.status r) = true ->
  Api.fixed_message (Api.status r) = None ->
  Api.data r = Api.Data m ->
  Api.handleAPIError error =
  JS.Return (JS.or_undef m (Api.generic_message (Api.status r))).
Proof.
  unfold Api.handleAPIError, Api.fixed_message, Api.generic_message, Api.is4xx.
  rewrite Hresponse. intros H4 Hfix Hdata. rewrite Hdata. simpl.
  destruct (Api.status r =? 400); [reflexivity |].
  destruct (Api.status r =? 401); [discriminate |].
  destruct (Api.status r =? 403); [discriminate |].
  destruct (Api.status r =? 404); [discriminate |].
  destruct (Api.status r =? 429); [discriminate |].
  destruct (Api.status r =? 500) eqn:E500; [| reflexivity].
  apply Z.eqb_eq in E500. rewrite E500 in H4. discriminate.
Qed.

End HandleAPIError.

Lemma fixed_message_statuses (s : Z) :
  Api.fixed_message s = None <->
  (s <> 401 /\ s <> 403 /\ s <> 404 /\ s <> 429)%Z.
Proof.
  unfold Api.fixed_message.
  destruct (Z.eqb_spec s 401); [split; [discriminate | tauto] |].
  destruct (Z.eqb_spec s 403); [split; [discriminate | tauto] |].
  destruct (Z.eqb_spec s 404); [split; [discriminate | tauto] |].
  destruct (Z.eqb_spec s 429); [split; [discriminate | tauto] |].
  tauto.
Qed.

(** C10, as amended. For an error response with a 4xx status whose
    payload is an object: the statuses 401, 403, 404 and 429 are answered
    with their fixed sentence whatever the payload says; every other 4xx
    status is answered with the payload's message when it carries a
    non-empty one, and otherwise with the generic sentence of the status. *)
Theorem handleAPIError_client_error
  (error : Api.AxiosError) (r : Api.ErrorResponse) (m : option JS.str) :
  Api.response error = Some r ->
  Api.is4xx (Api.status r) = true ->
  Api.data r = Api.Data m ->
  Api.handleAPIError error =
  JS.Return
    match Api.fixed_message (Api.status r) with
    | Some sentence => sentence
    | None =>
        match m with
        | Some (c :: text) => c :: text
        | _ => Api.generic_message (Api.status r)
        end
    end.
Proof.
  intros Hr H4 Hd.
  destruct (Api.fixed_message (Api.status r)) as [sentence|] eqn:Hfix.
  - exact (handleAPIError_fixed error Hr Hfix).
  - rewrite (handleAPIError_payload error Hr H4 Hfix Hd).
    destruct m as [[|c text]|]; reflexivity.
Qed.

Lemma handleAPIError_client_error_witness :
  Api.handleAPIError notFound = JS.Return (js "The requested resource was not found.").
Proof.
  exact (@handleAPIError_client_error notFound _ _ eq_refl eq_refl eq_refl).
Defined.

(** C10 as stated fails: the payload of this 404 carries a message,
    and the sentence returned is the fixed one of the status. *)
Lemma handleAPIError_ignores_payload_of_404 :
  Api.response notFound =
    Some {| Api.status := 404;
            Api.data := Api.Data (Some (js "No session with this id")) |} /\
  Api.is4xx 404 = true /\
  Api.handleAPIError notFound = JS.Return (js "The requested resource was not found.") /\
  Api.handleAPIError notFound <> JS.Return (js "No session with this id").
Proof.
  repeat split; try reflexivity. vm_compute. discriminate.
Qed.

(** ** [withRetry] *)

Lemma server_error_retried (e : Api.AxiosError) :
  Api.isServerError e = true -> Api.isClientError e = false.
Proof.
  unfold Api.isServerError, Api.isClientError.
  destruct (Api.response e) as [r|]; [| reflexivity].
  intros H. apply andb_true_iff in H. destruct H as [H _].
  apply Z.leb_le in H. apply andb_false_iff. right. apply Z.ltb_ge. lia.
Qed.

Lemma waits_app (t u : list Api.Effect) :
  Api.waits (t ++ u) = Api.waits t ++ Api.waits u.
Proof.
  induction t as [|[k|ms] t IH]; simpl; [reflexivity | exact IH |].
  now rewrite IH.
Qed.

Lemma backoff_step (delay : Z) (k : nat) (attempt : Z) (n : nat) :
  Api.backoff delay k attempt (S (S n)) =
  Api.Invoked k :: Api.Waited (delay * 2 ^ (attempt - 1)) ::
  Api.backoff delay (S k) (attempt + 1) (S n).
Proof. reflexivity. Qed.

Lemma waits_backoff (delay : Z) (n k : nat) (attempt : Z) :
  Api.waits (Api.backoff delay k attempt n) =
  List.map (fun i => delay * 2 ^ (attempt + Z.of_nat i - 1))%Z (seq 0 (n - 1)).
Proof.
  revert k attempt. induction n as [|[|n] IH]; intros k attempt.
  - reflexivity.
  - reflexivity.
  - rewrite backoff_step. cbn [Api.waits]. rewrite IH.
    replace (S (S n) - 1)%nat with (S (S n - 1)) by lia.
    cbn [seq List.map]. f_equal.
    + f_equal. f_equal. lia.
    + rewrite <- seq_shift, map_map. apply map_ext. intros i.
      f_equal. f_equal. lia.
Qed.

Lemma waits_backoff_from_first (delay : Z) (n : nat) :
  Api.waits (Api.backoff delay 0 1 n) =
  List.map (fun k => delay * 2 ^ (Z.of_nat k - 1))%Z (seq 1 (n - 1)).
Proof.
  rewrite waits_backoff, <- seq_shift, map_map. apply map_ext.
  intros i. f_equal. f_equal. lia.
Qed.

Section RetryLoop.

Local Open Scope Z_scope.

Variable R : Type.
Variable script : nat -> R + Api.AxiosError.
Variables maxRetries delay : Z.

Let loop := Api.retryLoop (Api.scripted script) Api.timer maxRetries delay.

Let failing := Api.failing script.

Lemma failing_next (w : Api.Net) (n : nat) (e : Api.AxiosError) (ms : Z) :
  failing w (S n) ->
  failing (Api.timer ms (snd (Api.scripted script w))) n.
Proof.
  intros H k Hk. destruct (H (S k)) as [e' He']; [lia |].
  exists e'. simpl. now rewrite <- Nat.add_succ_r.
Qed.

(** One turn of the loop whose attempt fails and is retried. *)
Lemma retryLoop_failure (remaining : nat) (attempt : Z)
  (lastError : option Api.AxiosError) (w : Api.Net) (e : Api.AxiosError) :
  script (Api.invocations w) = inr e ->
  Api.isClientError e = false ->
  loop (S remaining) attempt lastError w =
  loop remaining (attempt + 1) (Some e)
    (let w1 := snd (Api.scripted script w) in
     if attempt <? maxRetries
     then Api.timer (delay * 2 ^ (attempt - 1)) w1
     else w1).
Proof.
  intros He Hcl. unfold loop. simpl. now rewrite He, Hcl.
Qed.

(** After [n] failures that are retried, the next invocation settles
    the loop when it succeeds. *)
Lemma retryLoop_success (n : nat) :
  forall (remaining : nat) (attempt : Z) (lastError : option Api.AxiosError)
    (w : Api.Net) (r : R),
    Z.of_nat remaining = maxRetries - attempt + 1 ->
    (n < remaining)%nat ->
    failing w n ->
    script (Api.invocations w + n) = inl r ->
    loop remaining attempt lastError w =
    (inl r,
     {| Api.invocations := Api.invocations w + S n;
        Api.timeline :=
          Api.timeline w ++ Api.backoff delay (Api.invocations w) attempt (S n) |}).
Proof.
  induction n as [|n IH]; intros remaining attempt lastError w r Hrem Hlt Hfail Hok.
  - destruct remaining as [|remaining]; [lia |].
    unfold loop. simpl. rewrite Nat.add_0_r in Hok. rewrite Hok.
    now rewrite Nat.add_1_r.
  - destruct remaining as [|remaining]; [lia |].
    destruct (Hfail 0%nat) as [e [He Hcl]]; [lia |].
    rewrite Nat.add_0_r in He.
    rewrite (retryLoop_failure _ _ _ _ He Hcl).
    assert (Hlt' : (attempt <? maxRetries) = true) by (apply Z.ltb_lt; lia).
    cbv zeta. rewrite Hlt'.
    rewrite (IH remaining (attempt + 1) (Some e) _ r).
    + cbn [Api.invocations Api.timeline Api.timer Api.scripted snd].
      rewrite backoff_step, <- !app_assoc. cbn [app]. f_equal. f_equal. lia.
    + lia.
    + lia.
    + apply (failing_next e _ Hfail).
    + simpl. rewrite <- Hok. f_equal. lia.
Qed.

(** When every attempt the loop has left fails and is retried, the
    loop throws the failure of the last one. *)
Lemma retryLoop_exhausted (n : nat) :
  forall (attempt : Z) (lastError : option Api.AxiosError) (w : Api.Net)
    (e : Api.AxiosError),
    Z.of_nat (S n) = maxRetries - attempt + 1 ->
    failing w (S n) ->
    script (Api.invocations w + n) = inr e ->
    loop (S n) attempt lastError w =
    (inr (Some e),
     {| Api.invocations := Api.invocations w + S n;
        Api.timeline :=
          Api.timeline w ++ Api.backoff delay (Api.invocations w) attempt (S n) |}).
Proof.
  induction n as [|n IH]; intros attempt lastError w e Hrem Hfail Hlast;
    destruct (Hfail 0%nat) as [e' [He' Hcl]]; try lia;
    rewrite Nat.add_0_r in He';
    rewrite (retryLoop_failure _ _ _ _ He' Hcl); cbv zeta.
  - rewrite Nat.add_0_r in Hlast. rewrite Hlast in He'. injection He' as <-.
    assert (Hge : (attempt <? maxRetries) = false) by (apply Z.ltb_ge; lia).
    rewrite Hge. unfold loop. simpl. now rewrite Nat.add_1_r.
  - assert (Hlt' : (attempt <? maxRetries) = true) by (apply Z.ltb_lt; lia).
    rewrite Hlt'.
    rewrite (IH (attempt + 1) (Some e') _ e).
    + cbn [Api.invocations Api.timeline Api.timer Api.scripted snd].
      rewrite backoff_step, <- !app_assoc. cbn [app]. f_equal. f_equal. lia.
    + lia.
    + apply (failing_next e' _ Hfail).
    + simpl. rewrite <- Hlast. f_equal. lia.
Qed.

(** A client error ends the loop at once. *)
Lemma retryLoop_client_error (remaining : nat) (attempt : Z)
  (lastError : option Api.AxiosError) (w : Api.Net) (e : Api.AxiosError) :
  script (Api.invocations w) = inr e ->
  Api.isClientError e = true ->
  loop (S remaining) attempt lastError w =
  (inr (Some e),
   {| Api.invocations := S (Api.invocations w);
      Api.timeline := Api.timeline w ++ [Api.Invoked (Api.invocations w)] |}).
Proof.
  intros He Hcl. unfold loop. simpl. now rewrite He, Hcl.
Qed.

End RetryLoop.

Section WithRetryFacts.

Local Open Scope Z_scope.

Variable R : Type.
Variable script : nat -> R + Api.AxiosError.
Variables maxRetries delay : Z.

(** C4. Through [withRetry], a call that fails on its first [N-1]
    invocations, never with a client error (so in particular with a 5xx
    status), is invoked again each time. If invocation [N] succeeds, with
    [1 <= N <= maxRetries], its value is returned; if [N = maxRetries] and
    invocation [N] fails too, its failure, the last one observed, is
    thrown. Either way the call is invoked exactly [N] times, and the
    timers set between the attempts are, in order, [delay * 2^(k-1)] for
    [k = 1 .. N-1]: one after each failed attempt but the last. *)
Theorem withRetry_backoff (N : nat) :
  (1 <= N)%nat ->
  Z.of_nat N <= maxRetries ->
  (forall k, (k < N - 1)%nat ->
     exists e, script k = inr e /\ Api.isClientError e = false) ->
  let run := Api.withRetry (Api.scripted script) Api.timer maxRetries delay Api.idle in
  let spaced (w : Api.Net) :=
    Api.invocations w = N /\
    Api.waits (Api.timeline w) =
      List.map (fun k => delay * 2 ^ (Z.of_nat k - 1)) (seq 1 (N - 1)) /\
    Api.timeline w = Api.backoff delay 0 1 N in
  (forall r, script (N - 1)%nat = inl r ->
     fst run = inl r /\ spaced (snd run)) /\
  (forall e, Z.of_nat N = maxRetries ->
     script (N - 1)%nat = inr e -> Api.isClientError e = false ->
     fst run = inr (Some e) /\ spaced (snd run)).
Proof.
  intros HN Hmax Hfail run spaced.
  assert (Hprefix : Api.failing script Api.idle (N - 1)) by exact Hfail.
  assert (Hspaced : forall w,
             w = {| Api.invocations := N;
                    Api.timeline := Api.backoff delay 0 1 N |} -> spaced w).
  { intros w ->. unfold spaced. simpl.
    rewrite waits_backoff_from_first. auto. }
  split.
  - intros r Hr. subst run. unfold Api.withRetry.
    rewrite (@retryLoop_success R script maxRetries delay (N - 1)
               (Z.to_nat maxRetries) 1 None Api.idle r); try (simpl; lia); auto.
    replace (S (N - 1)) with N by lia.
    split; [reflexivity |]. apply Hspaced. reflexivity.
  - intros e HNmax He Hcl. subst run. unfold Api.withRetry.
    replace (Z.to_nat maxRetries) with (S (N - 1)) by lia.
    rewrite (@retryLoop_exhausted R script maxRetries delay (N - 1)
               1 None Api.idle e); try (simpl; lia); auto.
    + replace (S (N - 1)) with N by lia.
      split; [reflexivity |]. apply Hspaced. reflexivity.
    + intros k Hk. destruct (Nat.eq_dec k (N - 1)) as [-> | Hne].
      * exists e. auto.
      * apply Hfail. simpl. lia.
Qed.

(** C5. A call that fails with a client error (a status from 400 to
    499) is invoked exactly once by [withRetry]: the failure is thrown at
    once, no timer is set and no further attempt is made. The call is
    reached only when [maxRetries] is at least 1. *)
Theorem withRetry_client_error (e : Api.AxiosError) :
  1 <= maxRetries ->
  script 0%nat = inr e ->
  Api.isClientError e = true ->
  let run := Api.withRetry (Api.scripted script) Api.timer maxRetries delay Api.idle in
  fst run = inr (Some e) /\
  Api.invocations (snd run) = 1%nat /\
  Api.timeline (snd run) = [Api.Invoked 0] /\
  Api.waits (Api.timeline (snd run)) = [].
Proof.
  intros Hmax He Hcl run. subst run. unfold Api.withRetry.
  destruct (Z.to_nat maxRetries) as [|remaining] eqn:Hrem; [lia |].
  rewrite (@retryLoop_client_error R script maxRetries delay remaining 1 None
             Api.idle e He Hcl).
  repeat split.
Qed.

End WithRetryFacts.

(** With [maxRetries] below 1 the loop body never runs: the call is
    not invoked and [lastError], still [undefined], is thrown. *)
Example withRetry_without_attempts :
  Api.withRetry (Api.scripted flaky) Api.timer 0 1000 Api.idle = (inr None, Api.idle).
Proof. reflexivity. Qed.

Example withRetry_flaky_timeline :
  Api.timeline (snd (Api.withRetry (Api.scripted flaky) Api.timer 3 1000 Api.idle)) =
  [Api.Invoked 0; Api.Waited 1000; Api.Invoked 1; Api.Waited 2000; Api.Invoked 2].
Proof. reflexivity. Qed.

Lemma withRetry_backoff_witness :
  (let run := Api.withRetry (Api.scripted flaky) Api.timer 3 1000 Api.idle in
   fst run = inl answer /\
   Api.invocations (snd run) = 3%nat /\
   Api.waits (Api.timeline (snd run)) = [1000; 2000]%Z) /\
  (let run := Api.withRetry (Api.scripted down) Api.timer 3 1000 Api.idle in
   fst run = inr (Some (failure 503)) /\
   Api.invocations (snd run) = 3%nat /\
   Api.waits (Api.timeline (snd run)) = [1000; 2000]%Z).
Proof.
  split.
  - assert (H : forall k, (k < 3 - 1)%nat ->
                exists e, flaky k = inr e /\ Api.isClientError e = false).
    { intros [|[|k]] Hk; [exists (failure 500) .. | lia]; split; reflexivity. }
    destruct (@withRetry_backoff _ flaky 3 1000 3 ltac:(lia) ltac:(lia) H)
      as [Hok _].
    destruct (Hok answer eq_refl) as [Hv [Hn [Hw _]]].
    exact (conj Hv (conj Hn Hw)).
  - assert (H : forall k, (k < 3 - 1)%nat ->
                exists e, down k = inr e /\ Api.isClientError e = false).
    { intros k _. exists (failure 503). split; reflexivity. }
    destruct (@withRetry_backoff _ down 3 1000 3 ltac:(lia) ltac:(lia) H)
      as [_ Hko].
    destruct (Hko (failure 503) eq_refl eq_refl eq_refl) as [Hv [Hn [Hw _]]].
    exact (conj Hv (conj Hn Hw)).
Defined.

Lemma withRetry_client_error_witness :
  let run := Api.withRetry (Api.scripted unknownSession) Api.timer 3 1000 Api.idle in
  fst run = inr (Some notFound) /\
  Api.invocations (snd run) = 1%nat /\
  Api.timeline (snd run) = [Api.Invoked 0] /\
  Api.waits (Api.timeline (snd run)) = [].
Proof.
  exact (@withRetry_client_error _ unknownSession 3 1000 notFound
           ltac:(lia) eq_refl eq_refl).
Defined.

(** ** [withRateLimit] *)

Section RateLimit.

Local Open Scope Z_scope.

Variable delay : Z.

Lemma due_not_waiting (id : nat) (l : Api.Limiter) :
  Api.isWaiting id l = false -> Api.due id l = None.
Proof.
  unfold Api.isWaiting, Api.due.
  induction (Api.waiting l) as [|c cs IH]; simpl; [reflexivity |].
  destruct (Nat.eqb (fst c) id); [discriminate | exact IH].
Qed.





End RateLimit.



(** ** The interceptors and the authentication provider *)

Lemma getItem_removeItem (k : JS.str) (s : Api.Storage) :
  Api.getItem k (Api.removeItem k s) = None.
Proof.
  unfold Api.getItem, Api.removeItem.
  induction s as [|e s IH]; simpl; [reflexivity |].
  destruct (Api.sameKey k e) eqn:E; simpl; [exact IH |].
  now rewrite E.
Qed.

Lemma mounted_without_token (storage : Api.Storage) :
  Api.getItem Api.tokenKey storage = None ->
  Auth.isAuthenticated (Auth.mounted storage Auth.initial) = false.
Proof.
  intros H. unfold Auth.mounted. now rewrite H.
Qed.

(** C8, as amended. Whenever a rejected response carries status 401,
    whatever the call, the token is removed from storage at once and later
    requests carry no [Authorization] header. If the page is under
    [/admin], the browser is sent to [/admin/login] and the page loaded
    there is unauthenticated. On any other page the interceptor changes
    neither the location nor the state of the authentication provider. *)
Theorem unauthorized_evicts_token (error : Api.AxiosError) (p : Auth.Page) :
  Api.isUnauthorized error = true ->
  let p' := Auth.rejected error p in
  Api.getItem Api.tokenKey (Api.localStorage (Auth.browser p')) = None /\
  Api.authorization (Auth.browser p') = None /\
  (JS.startsWith (Api.pathname (Auth.browser p)) (js "/admin") = true ->
     Api.pathname (Auth.browser p') = js "/admin/login" /\
     Auth.isAuthenticated (Auth.auth p') = false) /\
  (JS.startsWith (Api.pathname (Auth.browser p)) (js "/admin") = false ->
     Api.pathname (Auth.browser p') = Api.pathname (Auth.browser p) /\
     Auth.auth p' = Auth.auth p).
Proof.
  intros H401 p'. subst p'. unfold Auth.rejected, Api.onResponseError.
  rewrite H401.
  pose proof (getItem_removeItem Api.tokenKey (Api.localStorage (Auth.browser p)))
    as Hgone.
  destruct (JS.startsWith (Api.pathname (Auth.browser p)) (js "/admin")) eqn:Hadmin.
  - cbn [Api.loads].
    assert (Hloads : Nat.eqb (S (Api.loads (Auth.browser p)))
                       (Api.loads (Auth.browser p)) = false)
      by (apply Nat.eqb_neq; lia).
    rewrite Hloads.
    unfold Auth.load, Api.authorization.
    cbn [Auth.browser Auth.auth Api.localStorage Api.pathname].
    rewrite Hgone.
    split; [reflexivity |]. split; [reflexivity |]. split; [| discriminate].
    intros _. split; [reflexivity |]. now apply mounted_without_token.
  - cbn [Api.loads]. rewrite Nat.eqb_refl. unfold Api.authorization.
    cbn [Auth.browser Auth.auth Api.localStorage Api.pathname].
    rewrite Hgone.
    split; [reflexivity |]. split; [reflexivity |]. split; [discriminate |].
    intros _. split; reflexivity.
Qed.

Lemma unauthorized_evicts_token_witness :
  let p' := Auth.rejected (failure 401) signedInAtAdmin in
  Auth.isAuthenticated (Auth.auth signedInAtAdmin) = true /\
  Api.getItem Api.tokenKey (Api.localStorage (Auth.browser p')) = None /\
  Api.pathname (Auth.browser p') = js "/admin/login" /\
  Auth.isAuthenticated (Auth.auth p') = false.
Proof.
  cbv zeta.
  destruct (@unauthorized_evicts_token (failure 401) signedInAtAdmin eq_refl)
    as [Hgone [_ [Hadmin _]]].
  destruct (Hadmin eq_refl) as [Hpath Hauth].
  split; [reflexivity |]. split; [exact Hgone |]. split; assumption.
Defined.

(** C8 as stated fails. On the home page, with a token in storage and
    the provider authenticated, a 401 removes the token and leaves the
    provider authenticated and the location where it was. *)
Lemma unauthorized_at_home_stays_authenticated :
  let p' := Auth.rejected (failure 401) signedInAtHome in
  Auth.isAuthenticated (Auth.auth signedInAtHome) = true /\
  Api.getItem Api.tokenKey (Api.localStorage (Auth.browser p')) = None /\
  Auth.isAuthenticated (Auth.auth p') = true /\
  Api.pathname (Auth.browser p') = js "/" /\
  Api.loads (Auth.browser p') = 0%nat.
Proof.
  vm_compute. repeat split.
Qed.

(** ** White space *)

Lemma trimStart_nil (s : JS.str) : JS.trimStart s = [] -> JS.blank s.
Proof.
  unfold JS.blank. induction s as [|c s IH]; simpl; intros H.
  - constructor.
  - destruct (JS.isWhiteSpace c) eqn:Hc; [| discriminate].
    constructor; [exact Hc | exact (IH H)].
Qed.

Lemma trimStart_head (s : JS.str) (c : N) (rest : JS.str) :
  JS.trimStart s = c :: rest -> JS.isWhiteSpace c = false.
Proof.
  induction s as [|d s IH]; simpl; intros H; [discriminate |].
  destruct (JS.isWhiteSpace d) eqn:Hd; [auto |].
  injection H as <- _. exact Hd.
Qed.

Lemma blank_rev (s : JS.str) : JS.blank (rev s) -> JS.blank s.
Proof.
  unfold JS.blank. rewrite !Forall_forall. intros H c Hc.
  apply H. now apply in_rev in Hc.
Qed.

Lemma trim_nil_iff_blank (s : JS.str) : JS.trim s = [] <-> JS.blank s.
Proof.
  split; [| apply trim_blank].
  unfold JS.trim, JS.trimEnd. intros H.
  apply (f_equal (@rev N)) in H. rewrite rev_involutive in H. simpl in H.
  apply trimStart_nil, blank_rev in H.
  destruct (JS.trimStart s) as [|c rest] eqn:Hs.
  - now apply trimStart_nil.
  - apply trimStart_head in Hs. inversion H; congruence.
Qed.

Lemma truthy_trim (s : JS.str) :
  JS.truthy (JS.trim s) = true <-> ~ JS.blank s.
Proof.
  rewrite <- trim_nil_iff_blank.
  destruct (JS.trim s); simpl; split; congruence.
Qed.

(** ** The conversation *)

Section Conversation.

Local Open Scope Z_scope.

Lemma handleSendMessage_refused (c : Chat.Context) (now : Z) (iso : JS.str)
  (s : Chat.State) :
  JS.blank (Chat.inputMessage s) \/ Chat.isLoading s = true ->
  Chat.handleSendMessage c now iso s = s.
Proof.
  intros [Hblank | Hbusy]; unfold Chat.handleSendMessage.
  - now rewrite (trim_blank Hblank).
  - rewrite Hbusy. now rewrite orb_true_r.
Qed.

Lemma handleSendMessage_accepted (c : Chat.Context) (now : Z) (iso : JS.str)
  (s : Chat.State) :
  ~ JS.blank (Chat.inputMessage s) ->
  Chat.isLoading s = false ->
  Chat.handleSendMessage c now iso s =
  Chat.chatMutate
    {| Chat.message := JS.trim (Chat.inputMessage s);
       Chat.session_id := Chat.ctxSessionId c;
       Chat.language := Language.code (Chat.ctxLanguage c) |}
    (Chat.setInputMessage []
       (Chat.setMessages (fun prev => prev ++ [Chat.userMessage now iso s]) s)).
Proof.
  intros Htext Hidle. unfold Chat.handleSendMessage.
  apply truthy_trim in Htext. now rewrite Htext, Hidle.
Qed.

(** Recording which callbacks a mutation holds leaves the chat as it
    is. *)
Lemma chat_chatMutated (b : bool) (c : Chat.Context) (a : App.State) :
  App.chat (if b then App.chatMutated c a else a) = App.chat a.
Proof. now destruct b. Qed.

Lemma chat_feedbackMutated (b : bool) (c : Chat.Context) (a : App.State) :
  App.chat (if b then App.feedbackMutated c a else a) = App.chat a.
Proof. now destruct b. Qed.

(** Submitting, on the page: refused, nothing changes; accepted, the
    mutation holds the callbacks of the render that submitted. *)
Lemma step_submit_refused (a : App.State) (now : Z) (iso : JS.str) :
  JS.blank (Chat.inputMessage (App.chat a)) \/ Chat.isLoading (App.chat a) = true ->
  App.step (App.Submit now iso) a = a.
Proof.
  intros H. destruct a as [c l s held helds]. simpl in *.
  unfold App.withChat. simpl.
  rewrite handleSendMessage_refused by exact H.
  now destruct (Chat.isLoading c).
Qed.

Lemma step_submit_accepted (a : App.State) (now : Z) (iso : JS.str) :
  ~ JS.blank (Chat.inputMessage (App.chat a)) ->
  Chat.isLoading (App.chat a) = false ->
  App.step (App.Submit now iso) a =
  App.chatMutated (App.context a)
    (App.withChat
       (fun c s =>
          Chat.chatMutate
            {| Chat.message := JS.trim (Chat.inputMessage s);
               Chat.session_id := Chat.ctxSessionId c;
               Chat.language := Language.code (Chat.ctxLanguage c) |}
            (Chat.setInputMessage []
               (Chat.setMessages (fun prev => prev ++ [Chat.userMessage now iso s]) s)))
       a).
Proof.
  intros Htext Hidle. simpl. unfold App.withChat. simpl.
  rewrite handleSendMessage_accepted by assumption. simpl.
  now rewrite Hidle.
Qed.

(** No event touches the session. *)
Lemma step_session (e : App.Event) (a : App.State) :
  App.session (App.step e a) = App.session a.
Proof.
  destruct e; simpl; try reflexivity.
  - unfold App.selectLanguage.
    now destruct (Language.sameLocale _ _).
  - now destruct (negb _ && _).
  - now destruct (Chat.isLoading _).
  - now destruct (Chat.isLoading _).
  - now destruct (Chat.truthyRating _).
  - unfold App.feedbackSettled. now destruct (nth_error _ _).
  - unfold App.feedbackSettled. now destruct (nth_error _ _).
Qed.

Lemma run_session (es : list App.Event) (a : App.State) :
  App.session (App.run es a) = App.session a.
Proof.
  revert a. induction es as [|e es IH]; intros a; simpl; [reflexivity |].
  unfold App.run in IH. now rewrite IH, step_session.
Qed.

(** Only the language selector changes the language. *)
Lemma step_language (e : App.Event) (a : App.State) :
  App.isLanguageSelection e = false ->
  App.language (App.step e a) = App.language a.
Proof.
  destruct e; simpl; try reflexivity; try discriminate; intros _.
  - now destruct (negb _ && _).
  - now destruct (Chat.isLoading _).
  - now destruct (Chat.isLoading _).
  - now destruct (Chat.truthyRating _).
  - unfold App.feedbackSettled. now destruct (nth_error _ _).
  - unfold App.feedbackSettled. now destruct (nth_error _ _).
Qed.

(** What an event other than a language selection does to the log: it
    appends at most one message, never a welcome message. *)
Lemma step_appends (e : App.Event) (a : App.State) :
  App.isLanguageSelection e = false ->
  exists suffix,
    App.log (App.step e a) = App.log a ++ suffix /\
    (List.length suffix <= 1)%nat /\
    Forall (fun m => Chat.isWelcome m = false) suffix.
Proof.
  assert (Hnone : forall l : list Chat.Message,
             exists suffix, l = l ++ suffix /\ (List.length suffix <= 1)%nat /\
               Forall (fun m => Chat.isWelcome m = false) suffix).
  { intros l. exists []. rewrite app_nil_r. repeat constructor. }
  assert (Hone : forall (l : list Chat.Message) m, Chat.isWelcome m = false ->
             exists suffix, l ++ [m] = l ++ suffix /\ (List.length suffix <= 1)%nat /\
               Forall (fun m => Chat.isWelcome m = false) suffix).
  { intros l m Hm. exists [m]. repeat constructor. exact Hm. }
  destruct e; simpl; try discriminate; intros _; unfold App.log; simpl;
    try apply Hnone.
  - rewrite chat_chatMutated. simpl. unfold Chat.handleSendMessage.
    destruct (negb _ || _); simpl; [apply Hnone | now apply Hone].
  - destruct (Chat.isLoading _); simpl; [now apply Hone | apply Hnone].
  - destruct (Chat.isLoading _); simpl; [now apply Hone | apply Hnone].
  - destruct action; simpl; apply Hnone.
  - unfold Chat.handleFeedback. destruct (Chat.truthyRating _); simpl; apply Hnone.
  - unfold App.feedbackSettled. destruct (nth_error _ _); simpl; apply Hnone.
  - unfold App.feedbackSettled. destruct (nth_error _ _); simpl; apply Hnone.
Qed.

(** While a request is in flight, an event that does not settle it
    leaves the flag and the requests sent as they are. *)
Lemma step_pending (e : App.Event) (a : App.State) :
  App.isSettlement e = false ->
  Chat.isLoading (App.chat a) = true ->
  Chat.isLoading (App.chat (App.step e a)) = true /\
  Chat.chatRequests (App.chat (App.step e a)) = Chat.chatRequests (App.chat a).
Proof.
  intros He Hbusy. destruct e; simpl in He; try discriminate;
    try rewrite step_submit_refused by (right; exact Hbusy); simpl;
    try (split; (reflexivity || exact Hbusy)).
  - unfold App.selectLanguage.
    destruct (Language.sameLocale _ _); simpl; split; (reflexivity || exact Hbusy).
  - destruct action; simpl; split; (reflexivity || exact Hbusy).
  - unfold Chat.handleFeedback. destruct (Chat.truthyRating _); simpl;
      split; (reflexivity || exact Hbusy).
  - unfold App.feedbackSettled. destruct (nth_error _ _); simpl;
      split; (reflexivity || exact Hbusy).
  - unfold App.feedbackSettled. destruct (nth_error _ _); simpl;
      split; (reflexivity || exact Hbusy).
Qed.

(** Nor does it touch the callbacks that the request in flight will
    run. *)
Lemma step_callbacks (e : App.Event) (a : App.State) :
  App.isSettlement e = false ->
  Chat.isLoading (App.chat a) = true ->
  App.chatCallbacks (App.step e a) = App.chatCallbacks a.
Proof.
  intros He Hbusy. destruct e; simpl in He; try discriminate;
    try rewrite step_submit_refused by (right; exact Hbusy); simpl;
    try reflexivity.
  - unfold App.selectLanguage. now destruct (Language.sameLocale _ _).
  - now destruct (Chat.truthyRating _).
  - unfold App.feedbackSettled. now destruct (nth_error _ _).
  - unfold App.feedbackSettled. now destruct (nth_error _ _).
Qed.

(** If it does not select a language either, it leaves the log and the
    language as they are. *)
Lemma step_quiet (e : App.Event) (a : App.State) :
  App.isSettlement e = false ->
  App.isLanguageSelection e = false ->
  Chat.isLoading (App.chat a) = true ->
  App.log (App.step e a) = App.log a.
Proof.
  intros He Hl Hbusy.
  destruct e; simpl in He, Hl; try discriminate;
    try rewrite step_submit_refused by (right; exact Hbusy);
    unfold App.log; simpl; try reflexivity.
  - now destruct action.
  - unfold Chat.handleFeedback. now destruct (Chat.truthyRating _).
  - unfold App.feedbackSettled. now destruct (nth_error _ _).
  - unfold App.feedbackSettled. now destruct (nth_error _ _).
Qed.

Lemma run_pending (es : list App.Event) (a : App.State) :
  Forall (fun e => App.isSettlement e = false) es ->
  Chat.isLoading (App.chat a) = true ->
  Chat.isLoading (App.chat (App.run es a)) = true /\
  Chat.chatRequests (App.chat (App.run es a)) = Chat.chatRequests (App.chat a) /\
  (Forall (fun e => App.isLanguageSelection e = false) es ->
     App.log (App.run es a) = App.log a /\
     App.language (App.run es a) = App.language a).
Proof.
  intros Hes. revert a. induction Hes as [|e es He _ IH]; intros a Hbusy.
  - repeat split. exact Hbusy.
  - destruct (step_pending e a He Hbusy) as [Hb Hr].
    destruct (IH _ Hb) as [Hb' [Hr' Hq']].
    change (App.run (e :: es) a) with (App.run es (App.step e a)).
    split; [exact Hb' |]. split; [now rewrite Hr' |].
    intros Hquiet. inversion Hquiet as [|e' es' Hl Hls]; subst.
    destruct (Hq' Hls) as [Hlog Hlang].
    rewrite Hlog, Hlang, step_language by exact Hl.
    split; [| reflexivity]. now apply step_quiet.
Qed.

(** While a request is in flight, the log is left as it is unless a
    language selection replaces it by the welcome message. *)
Lemma step_pending_log (e : App.Event) (a : App.State) :
  App.isSettlement e = false ->
  Chat.isLoading (App.chat a) = true ->
  App.log (App.step e a) = App.log a \/
  exists c iso, App.log (App.step e a) = [Chat.welcomeMessage c iso].
Proof.
  intros He Hbusy. destruct (App.isLanguageSelection e) eqn:Hl.
  - destruct e; try discriminate. simpl. unfold App.selectLanguage.
    destruct (Language.sameLocale _ _); [left; reflexivity |].
    right. eexists. eexists. reflexivity.
  - left. now apply step_quiet.
Qed.

Lemma run_pending_log (es : list App.Event) (a : App.State) :
  Forall (fun e => App.isSettlement e = false) es ->
  Chat.isLoading (App.chat a) = true ->
  App.log (App.run es a) = App.log a \/
  exists c iso, App.log (App.run es a) = [Chat.welcomeMessage c iso].
Proof.
  intros Hes. revert a. induction Hes as [|e es He _ IH]; intros a Hbusy;
    [left; reflexivity |].
  change (App.run (e :: es) a) with (App.run es (App.step e a)).
  destruct (IH (App.step e a)) as [Hsame | Hnew];
    [apply step_pending; assumption | | right; exact Hnew].
  rewrite Hsame. now apply step_pending_log.
Qed.

Lemma run_callbacks (es : list App.Event) (a : App.State) :
  Forall (fun e => App.isSettlement e = false) es ->
  Chat.isLoading (App.chat a) = true ->
  App.chatCallbacks (App.run es a) = App.chatCallbacks a.
Proof.
  intros Hes. revert a. induction Hes as [|e es He _ IH]; intros a Hbusy;
    [reflexivity |].
  change (App.run (e :: es) a) with (App.run es (App.step e a)).
  rewrite IH by (apply step_pending; assumption).
  now apply step_callbacks.
Qed.

End Conversation.

Section Exchange.

Local Open Scope Z_scope.

(** C3. In every state of the page, submitting is a no-op when the
    input is empty or holds only white space, and when a request is in
    flight: the state is left as it was, so the log keeps its length and
    no request goes out. *)
Theorem submit_refused (a : App.State) (now : Z) (iso : JS.str) :
  JS.blank (Chat.inputMessage (App.chat a)) \/ Chat.isLoading (App.chat a) = true ->
  let a' := App.step (App.Submit now iso) a in
  a' = a /\
  List.length (App.log a') = List.length (App.log a) /\
  Chat.chatRequests (App.chat a') = Chat.chatRequests (App.chat a).
Proof.
  intros H a'.
  assert (Hsame : a' = a).
  { subst a'. now apply step_submit_refused. }
  rewrite Hsame. repeat split.
Qed.

(** C1, as amended. A submission that is accepted (no request in
    flight, text that is not blank) appends the user message and sends one
    request. Whatever else happens on the page before that request
    settles, the request stays in flight and no other chat request goes
    out; short of a language selection the log is left as it is, user
    message included, and a language selection can only replace it by the
    welcome message. The settlement appends exactly one assistant message
    at the end of the log as it then is: one with the text of the response
    on success, one with [isError] set and the fallback sentence of the
    string table on failure, in the language in use when the message was
    submitted. The mutation is then idle again and nothing more settles. *)
Theorem exchange_appends_one_reply
  (a : App.State) (now : Z) (iso : JS.str) (others : list App.Event) :
  Chat.isLoading (App.chat a) = false ->
  ~ JS.blank (Chat.inputMessage (App.chat a)) ->
  Forall (fun e => App.isSettlement e = false) others ->
  let sent := Chat.userMessage now iso (App.chat a) in
  let a1 := App.step (App.Submit now iso) a in
  let a2 := App.run others a1 in
  let settled (a3 : App.State) (reply : Chat.Message) :=
    App.log a3 = App.log a2 ++ [reply] /\
    Chat.type reply = Chat.assistant /\
    Chat.isLoading (App.chat a3) = false /\
    Chat.chatRequests (App.chat a3) =
      Chat.chatRequests (App.chat a) ++
      [{| Chat.message := Chat.content sent;
          Chat.session_id := Session.sessionId (App.session a);
          Chat.language := Language.code (App.language a) |}] /\
    (forall r' now', App.step (App.ChatResolved r' now') a3 = a3) /\
    (forall now' iso', App.step (App.ChatRejected now' iso') a3 = a3) in
  App.log a1 = App.log a ++ [sent] /\
  Chat.type sent = Chat.user /\
  Chat.content sent = JS.trim (Chat.inputMessage (App.chat a)) /\
  Chat.isLoading (App.chat a2) = true /\
  (Forall (fun e => App.isLanguageSelection e = false) others ->
     App.log a2 = App.log a ++ [sent]) /\
  (App.log a2 = App.log a ++ [sent] \/
   exists c iso', App.log a2 = [Chat.welcomeMessage c iso']) /\
  (forall r now',
     let reply := Chat.assistantMessage r now' in
     settled (App.step (App.ChatResolved r now') a2) reply /\
     Chat.content reply = Chat.response r /\
     Chat.isError reply = false) /\
  (forall now' iso',
     let reply := Chat.errorMessage (App.context a) now' iso' in
     settled (App.step (App.ChatRejected now' iso') a2) reply /\
     Chat.content reply =
       JS.or (Language.error_response (Language.translations (App.language a)))
         (js "I apologize, but I encountered an error. Please try again or contact support if the problem persists.") /\
     Chat.isError reply = true).
Proof.
  intros Hidle Htext Hothers sent a1 a2 settled.
  assert (H1 : App.log a1 = App.log a ++ [sent] /\
               Chat.isLoading (App.chat a1) = true /\
               Chat.chatRequests (App.chat a1) =
                 Chat.chatRequests (App.chat a) ++
                 [{| Chat.message := Chat.content sent;
                     Chat.session_id := Session.sessionId (App.session a);
                     Chat.language := Language.code (App.language a) |}] /\
               App.chatCallbacks a1 = App.context a).
  { subst a1 sent. rewrite step_submit_accepted by assumption.
    unfold App.log. simpl. repeat split. }
  destruct H1 as [Hlog1 [Hbusy1 [Hreq1 Hheld1]]].
  destruct (run_pending a1 Hothers Hbusy1) as [Hbusy2 [Hreq2 Hquiet]].
  pose proof (run_callbacks a1 Hothers Hbusy1) as Hheld2.
  pose proof (run_pending_log a1 Hothers Hbusy1) as Hlog2.
  fold a2 in Hbusy2, Hreq2, Hquiet, Hheld2, Hlog2.
  rewrite Hheld1 in Hheld2. rewrite Hlog1 in Hlog2.
  split; [exact Hlog1 |]. split; [reflexivity |]. split; [reflexivity |].
  split; [exact Hbusy2 |].
  split; [intros Hq; destruct (Hquiet Hq) as [Hlog2' _]; now rewrite Hlog2' |].
  split; [exact Hlog2 |].
  split.
  - intros r now' reply. split; [| split; reflexivity].
    unfold settled, App.log. simpl. rewrite Hbusy2. simpl.
    rewrite Hreq2, Hreq1. repeat split.
  - intros now' iso' reply. split; [| split; reflexivity].
    unfold settled, App.log. simpl. rewrite Hbusy2. simpl.
    rewrite Hreq2, Hreq1, Hheld2. repeat split.
Qed.

End Exchange.

Lemma submit_refused_witness :
  (JS.blank (Chat.inputMessage (App.chat blanks)) /\
   App.step (App.Submit 1736937000000 (js "2025-01-15T10:30:00.000Z")) blanks = blanks) /\
  (Chat.isLoading (App.chat asking) = true /\
   Chat.inputMessage (App.chat asking) = js "Hello?" /\
   App.step (App.Submit 1736937000900 (js "2025-01-15T10:30:00.900Z")) asking = asking).
Proof.
  assert (Hblank : JS.blank (Chat.inputMessage (App.chat blanks))).
  { repeat constructor. }
  split.
  - split; [exact Hblank |].
    exact (proj1 (@submit_refused blanks 1736937000000
                    (js "2025-01-15T10:30:00.000Z") (or_introl Hblank))).
  - split; [reflexivity |]. split; [reflexivity |].
    exact (proj1 (@submit_refused asking 1736937000900
                    (js "2025-01-15T10:30:00.900Z") (or_intror eq_refl))).
Defined.

Lemma exchange_appends_one_reply_witness :
  let a1 := App.step (App.Submit 1736937000000 (js "2025-01-15T10:30:00.000Z")) typed in
  let a2 := App.run impatient a1 in
  let b2 := App.run [App.SelectLanguage Language.Es (js "2025-01-15T10:30:00.500Z")] a1 in
  App.log (App.step (App.ChatResolved answer 1736937001500) a2) =
    App.log home ++ [question; Chat.assistantMessage answer 1736937001500] /\
  App.log (App.step (App.ChatRejected 1736937001500 (js "2025-01-15T10:30:01.500Z")) a2) =
    App.log home ++
    [question;
     Chat.errorMessage (App.context home) 1736937001500 (js "2025-01-15T10:30:01.500Z")] /\
  List.map Chat.content
    (App.log (App.step (App.ChatRejected 1736937001500 (js "2025-01-15T10:30:01.500Z")) b2)) =
    [Language.welcome_message Language.es; Language.error_response Language.en].
Proof.
  cbv zeta.
  assert (Htext : ~ JS.blank (Chat.inputMessage (App.chat typed))).
  { apply truthy_trim. reflexivity. }
  assert (Hothers : Forall (fun e => App.isSettlement e = false) impatient).
  { repeat constructor. }
  assert (Hquiet : Forall (fun e => App.isLanguageSelection e = false) impatient).
  { repeat constructor. }
  destruct (@exchange_appends_one_reply typed 1736937000000
              (js "2025-01-15T10:30:00.000Z") impatient eq_refl Htext Hothers)
    as [_ [_ [_ [_ [Hlog [_ [Hok Hko]]]]]]].
  specialize (Hlog Hquiet).
  destruct (@exchange_appends_one_reply typed 1736937000000
              (js "2025-01-15T10:30:00.000Z")
              [App.SelectLanguage Language.Es (js "2025-01-15T10:30:00.500Z")]
              eq_refl Htext ltac:(repeat constructor))
    as [_ [_ [_ [_ [_ [_ [_ Hko']]]]]]].
  split; [| split].
  - destruct (Hok answer 1736937001500%Z) as [[H3 _] _].
    rewrite H3, Hlog, <- app_assoc. reflexivity.
  - destruct (Hko 1736937001500%Z (js "2025-01-15T10:30:01.500Z")) as [[H3 _] _].
    rewrite H3, Hlog, <- app_assoc. reflexivity.
  - destruct (Hko' 1736937001500%Z (js "2025-01-15T10:30:01.500Z")) as [[H3 _] _].
    rewrite H3. reflexivity.
Defined.

(** C1 as stated fails. The question is submitted and, while the
    request is in flight, Spanish is selected; then the service answers.
    The reply is appended, but the user message it answers is no longer in
    the log: the two entries are the Spanish welcome message and the
    reply. *)
Lemma language_selection_retracts_the_question :
  let a1 := App.step (App.Submit 1736937000000 (js "2025-01-15T10:30:00.000Z")) typed in
  let a2 := App.step (App.SelectLanguage Language.Es (js "2025-01-15T10:30:00.500Z")) a1 in
  let a3 := App.step (App.ChatResolved answer 1736937001500) a2 in
  App.log a1 = App.log home ++ [question] /\
  Chat.isLoading (App.chat a2) = true /\
  App.log a3 =
    [Chat.welcomeMessage
       {| Chat.ctxSessionId := js "3f2c9a1e-session"; Chat.ctxLanguage := Language.Es |}
       (js "2025-01-15T10:30:00.500Z");
     Chat.assistantMessage answer 1736937001500] /\
  List.map Chat.type (App.log a3) = [Chat.assistant; Chat.assistant] /\
  ~ In question (App.log a3).
Proof.
  cbv zeta. split; [reflexivity |]. split; [reflexivity |].
  split; [reflexivity |]. split; [reflexivity |].
  intros [H | [H | []]]; discriminate H.
Qed.

(** ** The session counter *)

(** C2, as amended. When an exchange resolves successfully the
    assistant message is appended and the session is left as it was: no
    event of the page invokes [incrementConversationCount], so
    [conversationCount] keeps its value through any run and is still 0
    after an exchange that started from a fresh session.
    [incrementConversationCount] itself adds exactly one. *)
Theorem success_leaves_session (a : App.State) (r : Chat.ChatResponse) (now : Z) :
  (Chat.isLoading (App.chat a) = true ->
   App.log (App.step (App.ChatResolved r now) a) =
     App.log a ++ [Chat.assistantMessage r now]) /\
  App.session (App.step (App.ChatResolved r now) a) = App.session a /\
  (forall es,
     Session.conversationCount (Session.sessionData (App.session (App.run es a))) =
     Session.conversationCount (Session.sessionData (App.session a))) /\
  (forall storage uuid iso language iso' es,
     Session.conversationCount
       (Session.sessionData
          (App.session
             (App.run es
                (App.mounted (Session.initial storage uuid iso) language iso')))) = 0%Z) /\
  (forall iso s,
     Session.conversationCount
       (Session.sessionData (Session.incrementConversationCount iso s)) =
     (Session.conversationCount (Session.sessionData s) + 1)%Z).
Proof.
  split; [| split; [| split; [| split]]].
  - intros Hbusy. unfold App.log. simpl. now rewrite Hbusy.
  - apply step_session.
  - intros es. now rewrite run_session.
  - intros. now rewrite run_session.
  - reflexivity.
Qed.

(** C2 as stated fails. From a fresh session, the question is
    submitted and the service answers: the answer is in the log and
    [conversationCount] is 0, not 1. *)
Lemma conversationCount_stays_zero :
  Session.conversationCount (Session.sessionData (App.session home)) = 0%Z /\
  App.log talked =
    App.log home ++ [question; Chat.assistantMessage answer 1736937001500] /\
  Chat.content (Chat.assistantMessage answer 1736937001500) = js "Yes, based on..." /\
  Chat.isLoading (App.chat talked) = false /\
  Session.conversationCount (Session.sessionData (App.session talked)) = 0%Z.
Proof.
  vm_compute. repeat split.
Qed.

(** ** Feedback *)

Lemma feedbackButtons_eligible (m : Chat.Message) (messageId : Chat.MessageId)
  (rating : option Z) :
  In (messageId, rating) (Chat.feedbackButtons m) ->
  Chat.truthyRating rating = true /\
  Chat.id m = messageId /\
  Chat.type m = Chat.assistant /\
  Chat.isWelcome m = false /\
  Chat.isError m = false.
Proof.
  unfold Chat.feedbackButtons.
  destruct (Chat.type m), (Chat.isWelcome m), (Chat.isError m); simpl;
    try contradiction.
  intros [H | [H | []]]; injection H as <- <-; repeat split.
Qed.

(** C7, as amended. [handleFeedback] does not look the message up:
    given any [messageId] and a rating that is truthy, it sends exactly
    one feedback request, carrying that identifier, that rating, an empty
    text and the identifier of the session; given no rating (or 0) it
    sends nothing and opens the detailed form. The log is not touched. The
    filter is in [MessageBubble]: rating buttons are drawn only on the
    messages of the log that are from the assistant and are neither the
    welcome message nor an error message, and a button passes the
    identifier of its message with a rating of 5 or 1. *)
Theorem handleFeedback_sends (c : Chat.Context) (messageId : Chat.MessageId)
  (rating : option Z) (s : Chat.State) :
  let s' := Chat.handleFeedback c messageId rating s in
  Chat.messages s' = Chat.messages s /\
  (Chat.truthyRating rating = true ->
     Chat.feedbackRequests s' =
       Chat.feedbackRequests s ++
       [{| Chat.feedback_session_id := Chat.ctxSessionId c;
           Chat.rating := rating;
           Chat.feedback_text := [];
           Chat.message_id := Some messageId |}]) /\
  (Chat.truthyRating rating = false ->
     Chat.feedbackRequests s' = Chat.feedbackRequests s /\
     Chat.showFeedback s' = true) /\
  (In (messageId, rating) (Chat.rendered s) ->
     Chat.truthyRating rating = true /\
     exists m, In m (Chat.messages s) /\
       Chat.id m = messageId /\
       Chat.type m = Chat.assistant /\
       Chat.isWelcome m = false /\
       Chat.isError m = false).
Proof.
  intros s'. subst s'. unfold Chat.handleFeedback.
  split; [destruct (Chat.truthyRating rating); reflexivity |].
  split; [intros ->; reflexivity |].
  split; [intros ->; split; reflexivity |].
  unfold Chat.rendered. intros Hin. apply in_flat_map in Hin.
  destruct Hin as [m [Hm Hbutton]].
  destruct (feedbackButtons_eligible m messageId rating Hbutton) as [Hr Hrest].
  split; [exact Hr |]. exists m. split; assumption.
Qed.

Lemma handleFeedback_sends_witness :
  let c := App.context talked in
  let s' := Chat.handleFeedback c (Chat.IdNumber 1736937001501) (Some 1%Z) (App.chat talked) in
  Chat.rendered (App.chat talked) =
    [(Chat.IdNumber 1736937001501, Some 5%Z); (Chat.IdNumber 1736937001501, Some 1%Z)] /\
  Chat.feedbackRequests s' =
    [{| Chat.feedback_session_id := js "3f2c9a1e-session";
        Chat.rating := Some 1%Z;
        Chat.feedback_text := [];
        Chat.message_id := Some (Chat.IdNumber 1736937001501) |}] /\
  exists m, In m (App.log talked) /\
    Chat.id m = Chat.IdNumber 1736937001501 /\
    Chat.type m = Chat.assistant /\
    Chat.isWelcome m = false /\
    Chat.isError m = false.
Proof.
  cbv zeta.
  destruct (@handleFeedback_sends (App.context talked)
              (Chat.IdNumber 1736937001501) (Some 1%Z) (App.chat talked))
    as [_ [Hsend [_ Hdrawn]]].
  split; [reflexivity |]. split; [exact (Hsend eq_refl) |].
  exact (proj2 (Hdrawn (or_intror (or_introl eq_refl)))).
Defined.

(** C7 as stated fails. On the page just loaded the log holds the
    welcome message only; rating the welcome message, or a message that
    is not in the log, sends a feedback request. *)
Lemma handleFeedback_rates_any_identifier :
  let c := App.context home in
  let s := App.chat home in
  List.map Chat.id (Chat.messages s) = [Chat.IdString (js "welcome")] /\
  List.map Chat.isWelcome (Chat.messages s) = [true] /\
  Chat.feedbackRequests s = [] /\
  Chat.feedbackRequests
    (Chat.handleFeedback c (Chat.IdString (js "welcome")) (Some 5%Z) s) =
    [{| Chat.feedback_session_id := js "3f2c9a1e-session";
        Chat.rating := Some 5%Z;
        Chat.feedback_text := [];
        Chat.message_id := Some (Chat.IdString (js "welcome")) |}] /\
  Chat.feedbackRequests
    (Chat.handleFeedback c (Chat.IdNumber 42) (Some 1%Z) s) =
    [{| Chat.feedback_session_id := js "3f2c9a1e-session";
        Chat.rating := Some 1%Z;
        Chat.feedback_text := [];
        Chat.message_id := Some (Chat.IdNumber 42) |}].
Proof.
  vm_compute. repeat split.
Qed.

(** ** The log *)

Lemma oneWelcome_app (l suffix : list Chat.Message) :
  App.oneWelcome l ->
  Forall (fun m => Chat.isWelcome m = false) suffix ->
  App.oneWelcome (l ++ suffix).
Proof.
  intros [w [rest [-> [Hw Hrest]]]] Hsuffix.
  exists w, (rest ++ suffix). repeat split; [exact Hw |].
  apply Forall_app. split; assumption.
Qed.

Lemma oneWelcome_welcome (c : Chat.Context) (iso : JS.str) :
  App.oneWelcome [Chat.welcomeMessage c iso].
Proof.
  exists (Chat.welcomeMessage c iso), []. repeat split. constructor.
Qed.

(** What a language selection does: nothing when the language picked
    is the one in use, otherwise the log is replaced by the welcome message
    of the language picked. *)
Lemma selectLanguage_log (picked : Language.Locale) (iso : JS.str) (a : App.State) :
  if Language.sameLocale picked (App.language a)
  then App.selectLanguage picked iso a = a
  else
    App.log (App.selectLanguage picked iso a) =
    [Chat.welcomeMessage
       {| Chat.ctxSessionId := Session.sessionId (App.session a);
          Chat.ctxLanguage := picked |} iso].
Proof.
  unfold App.selectLanguage.
  destruct (Language.sameLocale picked (App.language a)); reflexivity.
Qed.

Lemma step_oneWelcome (e : App.Event) (a : App.State) :
  App.oneWelcome (App.log a) -> App.oneWelcome (App.log (App.step e a)).
Proof.
  intros H. destruct (App.isLanguageSelection e) eqn:He.
  - destruct e; try discriminate. simpl.
    pose proof (selectLanguage_log picked iso a) as Hsel.
    destruct (Language.sameLocale picked (App.language a)).
    + now rewrite Hsel.
    + rewrite Hsel. apply oneWelcome_welcome.
  - destruct (step_appends e a He) as [suffix [-> [_ Hsuffix]]].
    now apply oneWelcome_app.
Qed.

Lemma run_oneWelcome (es : list App.Event) (a : App.State) :
  App.oneWelcome (App.log a) -> App.oneWelcome (App.log (App.run es a)).
Proof.
  revert a. induction es as [|e es IH]; intros a H; [exact H |].
  change (App.run (e :: es) a) with (App.run es (App.step e a)).
  now apply IH, step_oneWelcome.
Qed.

(** C9, as amended. Submitting, the two resolutions, and every other
    event except a language selection leave the log as it is or append one
    message at its end; the messages already there are neither removed nor
    changed. Picking, in the language selector, the language that is not
    in use replaces the whole log by the welcome message in that language;
    picking the language in use changes nothing. So from the first render
    on the log holds exactly one welcome message, its first entry. *)
Theorem log_appends_or_restarts (a : App.State) (e : App.Event) :
  (App.isLanguageSelection e = false ->
     exists suffix,
       App.log (App.step e a) = App.log a ++ suffix /\
       (List.length suffix <= 1)%nat /\
       Forall (fun m => Chat.isWelcome m = false) suffix) /\
  (forall picked iso, e = App.SelectLanguage picked iso ->
     if Language.sameLocale picked (App.language a)
     then App.step e a = a
     else
       App.log (App.step e a) =
       [Chat.welcomeMessage
          {| Chat.ctxSessionId := Session.sessionId (App.session a);
             Chat.ctxLanguage := picked |} iso] /\
       App.language (App.step e a) = picked) /\
  (forall session language iso es,
     App.oneWelcome (App.log (App.run es (App.mounted session language iso)))).
Proof.
  split; [apply step_appends |]. split.
  - intros picked iso ->. pose proof (selectLanguage_log picked iso a) as Hsel.
    simpl. unfold App.selectLanguage in *.
    destruct (Language.sameLocale picked (App.language a));
      [exact Hsel | split; [exact Hsel | reflexivity]].
  - intros session language iso es. apply run_oneWelcome, oneWelcome_welcome.
Qed.

Lemma log_appends_or_restarts_witness :
  (exists suffix,
     App.log (App.step (App.ChatResolved answer 1736937001500) asking) =
     App.log asking ++ suffix /\ (List.length suffix <= 1)%nat) /\
  App.log (App.step (App.SelectLanguage Language.Es (js "2025-01-15T10:31:00.000Z")) talked) =
    [Chat.welcomeMessage
       {| Chat.ctxSessionId := js "3f2c9a1e-session"; Chat.ctxLanguage := Language.Es |}
       (js "2025-01-15T10:31:00.000Z")].
Proof.
  split.
  - destruct (proj1 (@log_appends_or_restarts asking
                       (App.ChatResolved answer 1736937001500)) eq_refl)
      as [suffix [Hlog [Hlen _]]].
    exists suffix. split; assumption.
  - exact (proj1 (proj1 (proj2 (@log_appends_or_restarts talked
                           (App.SelectLanguage Language.Es (js "2025-01-15T10:31:00.000Z"))))
             Language.Es (js "2025-01-15T10:31:00.000Z") eq_refl)).
Defined.

(** C9 as stated fails. After one exchange the log holds the welcome
    message, the question and the answer; selecting Spanish leaves the
    Spanish welcome message alone in the log, which does not extend the
    log that was there. *)
Lemma language_selection_drops_the_log :
  let a' := App.step (App.SelectLanguage Language.Es (js "2025-01-15T10:31:00.000Z")) talked in
  App.log talked =
    App.log home ++ [question; Chat.assistantMessage answer 1736937001500] /\
  List.length (App.log talked) = 3%nat /\
  List.length (App.log a') = 1%nat /\
  List.map Chat.isWelcome (App.log a') = [true] /\
  ~ (exists suffix, App.log a' = App.log talked ++ suffix).
Proof.
  cbv zeta. split; [reflexivity |]. split; [reflexivity |].
  split; [reflexivity |]. split; [reflexivity |].
  intros [suffix H]. apply (f_equal (@List.length Chat.Message)) in H.
  rewrite length_app in H.
  change (List.length (App.log talked)) with 3%nat in H.
  change (1%nat = (3 + List.length suffix)%nat) in H. lia.
Qed.

(** ** The language *)

(** The language selector passes the codes of [availableLanguages], own
    keys of [translations]: for them the guard of [changeLanguage] passes,
    and [language] is set to the code picked. *)
Lemma changeLanguage_picked (picked : Language.Locale) (language : JS.str) :
  In picked Language.availableLanguages /\
  Language.lookup (Language.code picked) = Language.Table picked /\
  Language.changeLanguage (Language.code picked) language = Language.code picked.
Proof.
  destruct picked; (split; [simpl; tauto | split; reflexivity]).
Qed.

(** The guard also passes for a property name inherited from
    [Object.prototype], and stops a key that [translations] does not
    answer to. *)
Example changeLanguage_inherited :
  Language.changeLanguage (js "constructor") (js "en") = js "constructor".
Proof. reflexivity. Qed.

Example changeLanguage_unknown :
  Language.changeLanguage (js "fr") (js "en") = js "en".
Proof. reflexivity. Qed.

(** With nothing saved the provider starts in English; whatever is
    saved is taken as it is. *)
Example initial_language :
  Language.initial [] = js "en" /\
  Language.initial [(Language.languageKey, js "es")] = js "es" /\
  Language.initial [(Language.languageKey, js "fr")] = js "fr".
Proof. repeat split. Qed.

(** * Further properties *)

(** ** [handleAPIError], all branches *)

Lemma or_undef_truthy (m : option JS.str) (fallback : JS.str) :
  fallback <> [] -> JS.or_undef m fallback <> [].
Proof.
  intros H. destruct m as [[|c text]|]; cbv [JS.or_undef JS.or JS.truthy];
    [exact H | discriminate | exact H].
Qed.

Lemma lit_cons (c : ascii) (s : string) : js (String c s) <> [].
Proof. unfold JS.lit. simpl. discriminate. Qed.

(** X1. Whenever [handleAPIError] returns, the sentence it returns is
    not empty: an empty or missing message in the payload, or on the error
    itself, is replaced by the fallback of its branch. *)
Theorem handleAPIError_never_empty (error : Api.AxiosError) :
  match Api.handleAPIError error with
  | JS.Return sentence => sentence <> []
  | JS.Throw _ => True
  end.
Proof.
  unfold Api.handleAPIError.
  destruct (Api.response error) as [r|].
  - destruct (Api.data r) as [|m]; simpl;
      repeat match goal with
        | |- context [if ?b then _ else _] => destruct b
        end;
      try exact I; try apply or_undef_truthy; apply lit_cons.
  - destruct (Api.request error); [apply lit_cons |].
    apply or_undef_truthy, lit_cons.
Qed.

(** X2. [handleAPIError] throws in exactly one situation: the server
    answered, the payload is [null] or [undefined], and the status is not
    one of 401, 403, 404, 429 and 500, whose sentences do not read the
    payload. In every other situation it returns. *)
Theorem handleAPIError_throws_iff (error : Api.AxiosError) :
  Api.handleAPIError error = JS.Throw Api.TypeError <->
  exists r,
    Api.response error = Some r /\
    Api.data r = Api.NoData /\
    (Api.status r <> 401 /\ Api.status r <> 403 /\ Api.status r <> 404 /\
     Api.status r <> 429 /\ Api.status r <> 500)%Z.
Proof.
  unfold Api.handleAPIError. split.
  - destruct (Api.response error) as [r|].
    + intros H. exists r. split; [reflexivity |].
      destruct (Api.data r) as [|m]; simpl in H.
      * split; [reflexivity |].
        destruct (Z.eqb_spec (Api.status r) 400); [lia |].
        destruct (Z.eqb_spec (Api.status r) 401); [discriminate |].
        destruct (Z.eqb_spec (Api.status r) 403); [discriminate |].
        destruct (Z.eqb_spec (Api.status r) 404); [discriminate |].
        destruct (Z.eqb_spec (Api.status r) 429); [discriminate |].
        destruct (Z.eqb_spec (Api.status r) 500); [discriminate |].
        lia.
      * repeat match type of H with
          | context [if ?b then _ else _] => destruct b
          end; discriminate.
    + destruct (Api.request error); discriminate.
  - intros [r [-> [Hd [H401 [H403 [H404 [H429 H500]]]]]]]. rewrite Hd. simpl.
    destruct (Api.status r =? 400)%Z; [reflexivity |].
    destruct (Z.eqb_spec (Api.status r) 401); [contradiction |].
    destruct (Z.eqb_spec (Api.status r) 403); [contradiction |].
    destruct (Z.eqb_spec (Api.status r) 404); [contradiction |].
    destruct (Z.eqb_spec (Api.status r) 429); [contradiction |].
    destruct (Z.eqb_spec (Api.status r) 500); [contradiction |].
    reflexivity.
Qed.

(** ** [withRetry], every run *)

Section RetryRuns.

Local Open Scope Z_scope.

Variable R : Type.
Variable script : nat -> R + Api.AxiosError.
Variables maxRetries delay : Z.

Let loop := Api.retryLoop (Api.scripted script) Api.timer maxRetries delay.

(** What the loop ends with after [n] invocations, the first of which
    is invocation [k]. *)
Let ending (lastError : option Api.AxiosError) (k n : nat)
  : R + option Api.AxiosError :=
  match n with
  | O => inr lastError
  | S m =>
      match script (k + m)%nat with
      | inl r => inl r
      | inr e => inr (Some e)
      end
  end.

(** Invocation [k] does not ask for another attempt. *)
Let final (k : nat) : Prop :=
  match script k with
  | inl _ => True
  | inr e => Api.isClientError e = true
  end.

Lemma net_eta (w : Api.Net) :
  {| Api.invocations := Api.invocations w + 0;
     Api.timeline := Api.timeline w ++ [] |} = w.
Proof. destruct w. simpl. now rewrite Nat.add_0_r, app_nil_r. Qed.

(** Every run of the loop: it makes some number [n] of invocations,
    at most the number of turns it has left; the timeline is that of [n]
    attempts; all of them but the last failed and were retried; the loop
    ends with the outcome of the last one; and it stops short of its
    turns only on an invocation that does not ask for another attempt. *)
Lemma retryLoop_run (remaining : nat) :
  forall (attempt : Z) (lastError : option Api.AxiosError) (w : Api.Net),
    remaining = Z.to_nat (maxRetries - attempt + 1) ->
    exists n,
      (n <= remaining)%nat /\
      loop remaining attempt lastError w =
        (ending lastError (Api.invocations w) n,
         {| Api.invocations := Api.invocations w + n;
            Api.timeline :=
              Api.timeline w ++ Api.backoff delay (Api.invocations w) attempt n |}) /\
      Api.failing script w (n - 1) /\
      ((n < remaining)%nat ->
         (1 <= n)%nat /\ final (Api.invocations w + (n - 1))).
Proof.
  unfold loop.
  induction remaining as [|remaining IH]; intros attempt lastError w Hrem.
  - exists 0%nat. split; [lia |]. split; [| split; [intros k Hk; lia | lia]].
    simpl. now rewrite net_eta.
  - assert (Hone :
      forall res,
        (match script (Api.invocations w) with
         | inl r => inl r | inr e => inr (Some e) end) = res ->
        (res, snd (Api.scripted script w)) =
        (ending lastError (Api.invocations w) 1,
         {| Api.invocations := Api.invocations w + 1;
            Api.timeline :=
              Api.timeline w ++ Api.backoff delay (Api.invocations w) attempt 1 |})).
    { intros res <-. unfold ending. cbn [Api.scripted snd Api.backoff].
      now rewrite Nat.add_0_r, Nat.add_1_r. }
    destruct (script (Api.invocations w)) as [r|e] eqn:Hs.
    + exists 1%nat. split; [lia |]. split; [| split].
      * cbn [Api.retryLoop]. cbn [Api.scripted]. rewrite Hs.
        apply (Hone (inl r)). reflexivity.
      * intros k Hk. lia.
      * intros _. split; [lia |]. unfold final.
        replace (Api.invocations w + (1 - 1))%nat with (Api.invocations w) by lia.
        now rewrite Hs.
    + destruct (Api.isClientError e) eqn:Hcl.
      * exists 1%nat. split; [lia |]. split; [| split].
        -- cbn [Api.retryLoop]. cbn [Api.scripted]. rewrite Hs, Hcl.
           apply (Hone (inr (Some e))). reflexivity.
        -- intros k Hk. lia.
        -- intros _. split; [lia |]. unfold final.
           replace (Api.invocations w + (1 - 1))%nat with (Api.invocations w) by lia.
           now rewrite Hs.
      * rewrite (retryLoop_failure script maxRetries delay remaining attempt
                   lastError w Hs Hcl). cbv zeta.
        destruct remaining as [|remaining'].
        -- exists 1%nat. split; [lia |]. split; [| split].
           ++ assert (Hge : (attempt <? maxRetries) = false) by (apply Z.ltb_ge; lia).
              rewrite Hge. cbn [Api.retryLoop].
              apply (Hone (inr (Some e))). reflexivity.
           ++ intros k Hk. lia.
           ++ lia.
        -- assert (Hlt : (attempt <? maxRetries) = true) by (apply Z.ltb_lt; lia).
           rewrite Hlt.
           set (w2 := Api.timer (delay * 2 ^ (attempt - 1)) (snd (Api.scripted script w))).
           destruct (IH (attempt + 1) (Some e) w2 ltac:(lia))
             as [n' [Hle [Hrun [Hfail Hshort]]]].
           assert (Hinv : Api.invocations w2 = S (Api.invocations w)) by reflexivity.
           destruct n' as [|n''].
           { destruct Hshort as [Hpos _]; lia. }
           exists (S (S n'')). split; [lia |]. split; [| split].
           ++ rewrite Hrun. f_equal.
              ** unfold ending. rewrite Hinv.
                 replace (Api.invocations w + S n'')%nat
                   with (S (Api.invocations w) + n'')%nat by lia.
                 reflexivity.
              ** rewrite Hinv, backoff_step. subst w2.
                 cbn [Api.timer Api.scripted snd Api.timeline].
                 rewrite <- !app_assoc. cbn [app]. f_equal. lia.
           ++ intros k Hk. destruct k as [|k].
              ** exists e. rewrite Nat.add_0_r. auto.
              ** destruct (Hfail k ltac:(lia)) as [e' [He' Hcl']].
                 exists e'. rewrite Hinv in He'.
                 replace (Api.invocations w + S k)%nat
                   with (S (Api.invocations w) + k)%nat by lia. auto.
           ++ intros Hn. destruct (Hshort ltac:(lia)) as [_ Hfin].
              split; [lia |]. rewrite Hinv in Hfin.
              replace (Api.invocations w + (S (S n'') - 1))%nat
                with (S (Api.invocations w) + (S n'' - 1))%nat by lia.
              exact Hfin.
Qed.

End RetryRuns.

Lemma sum_waits_backoff (delay : Z) (n k : nat) (attempt : Z) :
  (1 <= attempt)%Z ->
  fold_right Z.add 0%Z (Api.waits (Api.backoff delay k attempt (S n))) =
  (delay * 2 ^ (attempt - 1) * (2 ^ Z.of_nat n - 1))%Z.
Proof.
  revert k attempt. induction n as [|n IH]; intros k attempt Ha.
  - simpl. lia.
  - rewrite backoff_step. cbn [Api.waits fold_right]. rewrite IH by lia.
    replace (attempt + 1 - 1)%Z with (Z.succ (attempt - 1)) by lia.
    rewrite Z.pow_succ_r by lia.
    rewrite Nat2Z.inj_succ, Z.pow_succ_r by lia. ring.
Qed.

Section WithRetryRuns.

Local Open Scope Z_scope.

Variable R : Type.
Variable script : nat -> R + Api.AxiosError.
Variables maxRetries delay : Z.

(** Every call through [withRetry], seen from a new world. *)
Lemma withRetry_run :
  let run := Api.withRetry (Api.scripted script) Api.timer maxRetries delay Api.idle in
  let n := Api.invocations (snd run) in
  (n <= Z.to_nat maxRetries)%nat /\
  Api.timeline (snd run) = Api.backoff delay 0 1 n /\
  fst run =
    match n with
    | O => inr None
    | S m =>
        match script m with
        | inl r => inl r
        | inr e => inr (Some e)
        end
    end /\
  Api.failing script Api.idle (n - 1) /\
  ((n < Z.to_nat maxRetries)%nat ->
     (1 <= n)%nat /\
     match script (n - 1)%nat with
     | inl _ => True
     | inr e => Api.isClientError e = true
     end).
Proof.
  intros run n.
  destruct (@retryLoop_run R script maxRetries delay (Z.to_nat maxRetries)
              1 None Api.idle) as [m [Hle [Hrun [Hfail Hshort]]]].
  { f_equal. lia. }
  assert (Hn : n = m).
  { subst n run. unfold Api.withRetry. now rewrite Hrun. }
  rewrite Hn. subst run. unfold Api.withRetry. rewrite Hrun.
  cbn [fst snd Api.timeline Api.invocations Api.idle app Nat.add] in *.
  repeat split; try assumption; destruct (Hshort H); assumption.
Qed.

End WithRetryRuns.

Section WithRetryEveryRun.

Local Open Scope Z_scope.

Variable R : Type.
Variable script : nat -> R + Api.AxiosError.
Variables maxRetries delay : Z.

(** X3. Whatever the wrapped call does, [withRetry] invokes it at most
    [maxRetries] times (not at all when [maxRetries] is below 1, in which
    case [undefined] is thrown), and its timers sit exactly between
    consecutive attempts: after [n] invocations the timers set are, in
    order, [delay * 2^(k-1)] for [k = 1 .. n-1], and none follows the last
    attempt. *)
Theorem withRetry_attempts :
  let run := Api.withRetry (Api.scripted script) Api.timer maxRetries delay Api.idle in
  let n := Api.invocations (snd run) in
  (n <= Z.to_nat maxRetries)%nat /\
  Api.timeline (snd run) = Api.backoff delay 0 1 n /\
  Api.waits (Api.timeline (snd run)) =
    List.map (fun k => delay * 2 ^ (Z.of_nat k - 1)) (seq 1 (n - 1)) /\
  (n = 0%nat -> fst run = inr None).
Proof.
  intros run n.
  destruct (withRetry_run script maxRetries delay) as [Hle [Ht [Hres _]]].
  fold run in Hle, Ht, Hres. fold n in Hle, Ht, Hres.
  split; [exact Hle |]. split; [exact Ht |].
  split; [rewrite Ht; apply waits_backoff_from_first |].
  intros H0. rewrite Hres, H0. reflexivity.
Qed.

(** X4. [withRetry] ends with the outcome of the last invocation it
    made: that invocation's value, or its failure thrown. Every earlier
    invocation failed without a client error. And the wrapper stops before
    having used its [maxRetries] attempts only on a success or on a client
    error. *)
Theorem withRetry_last_outcome :
  let run := Api.withRetry (Api.scripted script) Api.timer maxRetries delay Api.idle in
  let n := Api.invocations (snd run) in
  (forall m, n = S m ->
     fst run =
       match script m with
       | inl r => inl r
       | inr e => inr (Some e)
       end) /\
  (forall k, (k < n - 1)%nat ->
     exists e, script k = inr e /\ Api.isClientError e = false) /\
  ((n < Z.to_nat maxRetries)%nat ->
     (1 <= n)%nat /\
     match script (n - 1)%nat with
     | inl _ => True
     | inr e => Api.isClientError e = true
     end).
Proof.
  intros run n.
  destruct (withRetry_run script maxRetries delay) as [_ [_ [Hres [Hfail Hshort]]]].
  fold run in Hres, Hfail, Hshort. fold n in Hres, Hfail, Hshort.
  split; [| split; [exact Hfail | exact Hshort]].
  intros m Hm. rewrite Hres, Hm. reflexivity.
Qed.

(** X5. With a delay that is not negative, the time [withRetry] spends
    on its timers is at most [delay * (2^(maxRetries-1) - 1)], whatever the
    wrapped call does: with the defaults (3 attempts, 1000 ms) at most 3
    seconds. *)
Theorem withRetry_total_wait :
  0 <= delay ->
  let run := Api.withRetry (Api.scripted script) Api.timer maxRetries delay Api.idle in
  let total := fold_right Z.add 0 (Api.waits (Api.timeline (snd run))) in
  0 <= total <= delay * (2 ^ (Z.max 1 maxRetries - 1) - 1).
Proof.
  intros Hdelay run total.
  destruct (withRetry_run script maxRetries delay) as [Hle [Ht _]].
  fold run in Hle, Ht. subst total. rewrite Ht.
  assert (Hpow : 1 <= 2 ^ (Z.max 1 maxRetries - 1)).
  { apply (Z.pow_le_mono_r 2 0); lia. }
  destruct (Api.invocations (snd run)) as [|m].
  - simpl. nia.
  - rewrite sum_waits_backoff by lia.
    assert (Hm : 2 ^ Z.of_nat m <= 2 ^ (Z.max 1 maxRetries - 1)).
    { apply Z.pow_le_mono_r; lia. }
    assert (Hm1 : 1 <= 2 ^ Z.of_nat m).
    { apply (Z.pow_le_mono_r 2 0); lia. }
    change (2 ^ (1 - 1)) with 1. nia.
Qed.

(** X6. A client error stops [withRetry] at whatever attempt it
    comes: if the first [N-1] invocations fail without a client error and
    invocation [N], with [1 <= N <= maxRetries], fails with one, that
    failure is thrown at once, after exactly [N] invocations; the timers
    set are those between the [N] attempts and none follows the client
    error. *)
Theorem client_error_stops_withRetry (N : nat) (e : Api.AxiosError) :
  (1 <= N)%nat ->
  Z.of_nat N <= maxRetries ->
  (forall k, (k < N - 1)%nat ->
     exists e', script k = inr e' /\ Api.isClientError e' = false) ->
  script (N - 1)%nat = inr e ->
  Api.isClientError e = true ->
  let run := Api.withRetry (Api.scripted script) Api.timer maxRetries delay Api.idle in
  fst run = inr (Some e) /\
  Api.invocations (snd run) = N /\
  Api.waits (Api.timeline (snd run)) =
    List.map (fun k => delay * 2 ^ (Z.of_nat k - 1)) (seq 1 (N - 1)).
Proof.
  intros HN Hmax Hprefix He Hcl run.
  destruct (withRetry_run script maxRetries delay)
    as [Hle [Ht [Hres [Hfail Hshort]]]].
  fold run in Hle, Ht, Hres, Hfail, Hshort.
  set (n := Api.invocations (snd run)) in *.
  assert (Hn : n = N).
  { destruct (Nat.lt_trichotomy n N) as [Hlt | [Heq | Hgt]]; [| exact Heq |].
    - destruct (Hshort ltac:(lia)) as [Hpos Hfin].
      destruct (Hprefix (n - 1)%nat ltac:(lia)) as [e' [He' Hcl']].
      rewrite He' in Hfin. congruence.
    - destruct (Hfail (N - 1)%nat ltac:(lia)) as [e' [He' Hcl']].
      simpl in He'. congruence. }
  rewrite Hres, Ht, Hn.
  destruct N as [|m]; [lia |].
  replace (S m - 1)%nat with m in He by lia. rewrite He.
  split; [reflexivity |]. split; [reflexivity |].
  apply waits_backoff_from_first.
Qed.

End WithRetryEveryRun.

Lemma withRetry_total_wait_witness :
  let run := Api.withRetry (Api.scripted down) Api.timer 3 1000 Api.idle in
  (0 <= fold_right Z.add 0 (Api.waits (Api.timeline (snd run))) <= 3000)%Z.
Proof.
  exact (@withRetry_total_wait _ down 3 1000 ltac:(lia)).
Defined.

Lemma client_error_stops_withRetry_witness :
  let run := Api.withRetry (Api.scripted refusing) Api.timer 3 1000 Api.idle in
  fst run = inr (Some (failure 422)) /\
  Api.invocations (snd run) = 2%nat /\
  Api.waits (Api.timeline (snd run)) = [1000%Z].
Proof.
  assert (H : forall k, (k < 2 - 1)%nat ->
              exists e', refusing k = inr e' /\ Api.isClientError e' = false).
  { intros [|k] Hk; [| lia]. exists (failure 502). split; reflexivity. }
  exact (@client_error_stops_withRetry _ refusing 3 1000 2 (failure 422)
           ltac:(lia) ltac:(lia) H eq_refl eq_refl).
Defined.

(** ** [withRateLimit], calls made one after the other *)

Section PacedCalls.

Local Open Scope Z_scope.

Variable delay : Z.

(** One call on a wrapper with no call waiting: it starts, at least
    [delay] after the cursor, and leaves no call waiting. *)
Lemma call_starts (id : nat) (r : Paced.Readings) (l : Api.Limiter) :
  Api.waiting l = [] ->
  Paced.now r <= Paced.now' r ->
  Api.firesOnTime id (Paced.fired r)
    (Api.invoke delay id (Paced.now r) (Paced.now' r) l) ->
  exists t,
    Api.started (Paced.call delay id r l) = Api.started l ++ [(id, t)] /\
    Api.lastCall (Paced.call delay id r l) = t /\
    Api.waiting (Paced.call delay id r l) = [] /\
    Api.lastCall l + delay <= t.
Proof.
  intros Hnone Hclock Htimer. unfold Paced.call.
  unfold Api.firesOnTime, Api.due in Htimer. unfold Api.invoke in *.
  destruct (Paced.now r - Api.lastCall l <? delay) eqn:Hsoon.
  - apply Z.ltb_lt in Hsoon. exists (Paced.fired r).
    unfold Api.resume, Api.isWaiting, Api.proceed.
    cbn [Api.waiting Api.started Api.lastCall] in *.
    rewrite Hnone in *. cbn [app existsb find filter fst snd] in *.
    rewrite Nat.eqb_refl in *. cbn [orb negb snd] in *.
    repeat split. lia.
  - apply Z.ltb_ge in Hsoon. exists (Paced.now' r).
    unfold Api.resume, Api.isWaiting, Api.proceed.
    cbn [Api.waiting Api.started Api.lastCall].
    rewrite Hnone. cbn [filter existsb]. cbn [Api.started Api.lastCall Api.waiting].
    repeat split. lia.
Qed.

(** X7. Calls made one after the other through [withRateLimit], each
    issued once the one before it has started, all start, once each and in
    the order they were issued, and every start is at least [delay] after
    the start before it (the first at least [delay] after the cursor the
    wrapper had). Assumed: the clock does not run backwards within a call
    and a timer does not fire before it is due. *)
Theorem paced_calls_spaced (rs : list Paced.Readings) :
  forall (id : nat) (l : Api.Limiter),
    Api.waiting l = [] ->
    Paced.punctual delay id rs l ->
    exists times,
      Api.started (Paced.calls delay id rs l) =
        Api.started l ++ combine (seq id (List.length rs)) times /\
      List.length times = List.length rs /\
      Paced.spaced delay (Api.lastCall l) times /\
      Api.waiting (Paced.calls delay id rs l) = [].
Proof.
  induction rs as [|r rs IH]; intros id l Hnone Hp.
  - exists []. simpl. rewrite app_nil_r. auto.
  - destruct Hp as [Hclock [Htimer Hrest]].
    destruct (call_starts id r l Hnone Hclock Htimer) as [t [Hs [Hc [Hw Ht]]]].
    destruct (IH (S id) _ Hw Hrest) as [times [Hs' [Hlen [Hsp Hw']]]].
    exists (t :: times). cbn [Paced.calls List.length seq combine Paced.spaced].
    rewrite Hs', Hs, <- app_assoc. rewrite Hc in Hsp.
    split; [reflexivity |]. split; [now rewrite Hlen |].
    split; [split; assumption | exact Hw'].
Qed.

End PacedCalls.

Lemma paced_calls_spaced_witness :
  Api.started (Paced.calls 1000 1 threeCalls Api.fresh) =
    [(1%nat, 1700000000000%Z); (2%nat, 1700000001003%Z); (3%nat, 1700000003004%Z)] /\
  exists times,
    Api.started (Paced.calls 1000 1 threeCalls Api.fresh) =
      combine [1%nat; 2%nat; 3%nat] times /\
    Paced.spaced 1000 0 times.
Proof.
  split; [reflexivity |].
  assert (Hp : Paced.punctual 1000 1 threeCalls Api.fresh).
  { vm_compute. repeat split; discriminate. }
  destruct (@paced_calls_spaced 1000 threeCalls 1%nat Api.fresh eq_refl Hp)
    as [times [Hs [_ [Hsp _]]]].
  exists times. split; [exact Hs | exact Hsp].
Defined.

(** ** Storage *)

Lemma sameKey_refl (k v : JS.str) : Api.sameKey k (k, v) = true.
Proof.
  unfold Api.sameKey. simpl. destruct (list_eq_dec N.eq_dec k k); congruence.
Qed.

Lemma getItem_setItem (k v : JS.str) (s : Api.Storage) :
  Api.getItem k (Api.setItem k v s) = Some v.
Proof.
  unfold Api.getItem, Api.setItem. simpl. now rewrite sameKey_refl.
Qed.

Lemma sameKey_true (k : JS.str) (e : JS.str * JS.str) :
  Api.sameKey k e = true -> fst e = k.
Proof.
  unfold Api.sameKey. destruct (list_eq_dec N.eq_dec (fst e) k); [auto | discriminate].
Qed.

Lemma getItem_removeItem_other (k k' : JS.str) (s : Api.Storage) :
  k' <> k -> Api.getItem k' (Api.removeItem k s) = Api.getItem k' s.
Proof.
  intros Hne. unfold Api.getItem, Api.removeItem.
  induction s as [|e s IH]; [reflexivity |].
  cbn [filter find].
  destruct (Api.sameKey k e) eqn:E1; destruct (Api.sameKey k' e) eqn:E2;
    cbn [negb find]; rewrite ?E2; try reflexivity; try exact IH.
  apply sameKey_true in E1, E2. congruence.
Qed.

Lemma getItem_setItem_other (k k' v : JS.str) (s : Api.Storage) :
  k' <> k -> Api.getItem k' (Api.setItem k v s) = Api.getItem k' s.
Proof.
  intros Hne. rewrite <- (getItem_removeItem_other s Hne).
  unfold Api.getItem, Api.setItem. cbn [find].
  destruct (Api.sameKey k' (k, v)) eqn:E; [| reflexivity].
  apply sameKey_true in E. simpl in E. congruence.
Qed.

(** ** The session and its storage *)

Section SessionFacts.

Local Open Scope Z_scope.

Lemma or_truthy (a b : JS.str) : a <> [] -> JS.or a b = a.
Proof. destruct a; [congruence | reflexivity]. Qed.

Lemma initial_sessionId_truthy (storage : Api.Storage) (uuid iso : JS.str) :
  uuid <> [] -> Session.sessionId (Session.initial storage uuid iso) <> [].
Proof.
  intros Hu. unfold Session.initial. cbn [Session.sessionId].
  destruct (Api.getItem Session.sessionKey storage) as [[|c id]|];
    cbv [JS.or JS.truthy]; [exact Hu | discriminate | exact Hu].
Qed.

Lemma updates_frame (us : list SessionStore.Update) (s : Session.State) :
  Session.sessionId (SessionStore.updates us s) = Session.sessionId s /\
  Session.startTime (Session.sessionData (SessionStore.updates us s)) =
    Session.startTime (Session.sessionData s) /\
  Session.conversationCount (Session.sessionData (SessionStore.updates us s)) =
    Session.conversationCount (Session.sessionData s) +
    Z.of_nat (List.length (filter SessionStore.isExchange us)).
Proof.
  revert s. induction us as [|u us IH]; intros s.
  - simpl. repeat split. lia.
  - change (SessionStore.updates (u :: us) s)
      with (SessionStore.updates us (SessionStore.update u s)).
    destruct (IH (SessionStore.update u s)) as [Hid [Hst Hc]].
    rewrite Hid, Hst, Hc. destruct u; simpl; repeat split; lia.
Qed.

(** X8. The session identifier survives a reload and the session data
    do not. The identifier chosen on the first load (the stored one if
    there is a non-empty one, else the fresh [uuid]) is written to storage
    and is read back by every later load, whatever activity was recorded
    in between; the later load starts again with [conversationCount] 0 and
    a new [startTime], since only the identifier is stored. [uuidv4()]
    is assumed to return a non-empty string. *)
Theorem session_id_survives_reload
  (storage : Api.Storage) (uuid iso uuid' iso' : JS.str)
  (us : list SessionStore.Update) :
  uuid <> [] ->
  let first := SessionStore.load storage uuid iso in
  let before := SessionStore.updates us (fst first) in
  let again := SessionStore.load (snd first) uuid' iso' in
  Session.sessionId before = Session.sessionId (fst first) /\
  Session.sessionId (fst again) = Session.sessionId (fst first) /\
  Api.getItem Session.sessionKey (snd again) = Some (Session.sessionId (fst first)) /\
  Session.conversationCount (Session.sessionData (fst again)) = 0 /\
  Session.startTime (Session.sessionData (fst again)) = iso'.
Proof.
  intros Hu first before again.
  pose proof (initial_sessionId_truthy storage iso Hu) as Hid.
  split; [apply updates_frame |].
  assert (Hagain : Session.sessionId (fst again) = Session.sessionId (fst first)).
  { subst again first. unfold SessionStore.load, SessionStore.persist.
    cbn [fst snd]. unfold Session.initial at 1. cbn [Session.sessionId].
    rewrite getItem_setItem. now apply or_truthy. }
  split; [exact Hagain |].
  split; [| split; reflexivity].
  subst again. unfold SessionStore.load at 1. cbn [snd].
  unfold SessionStore.persist. rewrite getItem_setItem. f_equal. exact Hagain.
Qed.

(** X9. [createNewSession] replaces the session whole: the new state
    has the new identifier, [conversationCount] 0 and both timestamps set
    to the time of the call, nothing of the old state remains, storage
    holds the new identifier, and a later load reads it back (for a
    non-empty identifier). *)
Theorem createNewSession_replaces
  (p q : Session.State * Api.Storage) (newSessionId iso uuid' iso' : JS.str) :
  newSessionId <> [] ->
  let p' := SessionStore.rotate newSessionId iso p in
  Session.sessionId (fst p') = newSessionId /\
  Session.sessionData (fst p') =
    {| Session.conversationCount := 0;
       Session.startTime := iso;
       Session.lastActivity := iso |} /\
  fst p' = fst (SessionStore.rotate newSessionId iso q) /\
  Api.getItem Session.sessionKey (snd p') = Some newSessionId /\
  Session.sessionId (fst (SessionStore.load (snd p') uuid' iso')) = newSessionId.
Proof.
  intros Hid p'. subst p'. unfold SessionStore.rotate, SessionStore.persist.
  cbn [fst snd Session.createNewSession Session.sessionId Session.sessionData].
  split; [reflexivity |]. split; [reflexivity |]. split; [reflexivity |].
  split; [apply getItem_setItem |].
  unfold SessionStore.load. cbn [fst]. unfold Session.initial.
  cbn [Session.sessionId]. rewrite getItem_setItem. now apply or_truthy.
Qed.

(** X10. Under any sequence of [updateActivity] and
    [incrementConversationCount] the identifier and [startTime] stay as
    they are and [conversationCount] is the count before plus the number
    of [incrementConversationCount] calls: it never decreases and
    [updateActivity] does not count. *)
Theorem session_updates_count (us : list SessionStore.Update) (s : Session.State) :
  let s' := SessionStore.updates us s in
  Session.sessionId s' = Session.sessionId s /\
  Session.startTime (Session.sessionData s') = Session.startTime (Session.sessionData s) /\
  Session.conversationCount (Session.sessionData s') =
    Session.conversationCount (Session.sessionData s) +
    Z.of_nat (List.length (filter SessionStore.isExchange us)) /\
  Session.conversationCount (Session.sessionData s) <=
    Session.conversationCount (Session.sessionData s').
Proof.
  intros s'. destruct (updates_frame us s) as [Hid [Hst Hc]].
  fold s' in Hid, Hst, Hc. repeat split; try assumption. lia.
Qed.

End SessionFacts.

Lemma session_id_survives_reload_witness :
  let again :=
    SessionStore.load (snd seasoned) (js "9b1d77c0-other") (js "2025-01-16T08:00:00.000Z") in
  Session.conversationCount (Session.sessionData (fst seasoned)) = 2%Z /\
  Session.sessionId (fst again) = js "3f2c9a1e-session" /\
  Session.conversationCount (Session.sessionData (fst again)) = 0%Z.
Proof.
  cbv zeta.
  destruct (@session_id_survives_reload [] (js "3f2c9a1e-session")
              (js "2025-01-15T10:29:00.000Z") (js "9b1d77c0-other")
              (js "2025-01-16T08:00:00.000Z") [] ltac:(apply lit_cons))
    as [_ [Hid [_ [Hcount _]]]].
  split; [reflexivity |]. split; [exact Hid | exact Hcount].
Defined.

Lemma createNewSession_replaces_witness :
  let p' := SessionStore.rotate (js "9b1d77c0-other") (js "2025-01-16T08:00:00.000Z") seasoned in
  Session.conversationCount (Session.sessionData (fst seasoned)) = 2%Z /\
  Session.sessionId (fst p') = js "9b1d77c0-other" /\
  Session.conversationCount (Session.sessionData (fst p')) = 0%Z /\
  Api.getItem Session.sessionKey (snd p') = Some (js "9b1d77c0-other").
Proof.
  cbv zeta.
  destruct (@createNewSession_replaces seasoned seasoned (js "9b1d77c0-other")
              (js "2025-01-16T08:00:00.000Z") (js "x") (js "y") ltac:(apply lit_cons))
    as [Hid [Hdata [_ [Hstore _]]]].
  split; [reflexivity |]. split; [exact Hid |].
  split; [now rewrite Hdata | exact Hstore].
Defined.

(** ** Logging in and out *)

Section AuthFacts.

Lemma authorization_with_token (token : JS.str) (b : Api.Browser) :
  token <> [] ->
  Api.getItem Api.tokenKey (Api.localStorage b) = Some token ->
  Api.authorization b = Some (js "Bearer " ++ token).
Proof.
  intros Ht Hg. unfold Api.authorization. rewrite Hg.
  destruct token; [congruence | reflexivity].
Qed.

Lemma authorization_without_token (b : Api.Browser) :
  Api.getItem Api.tokenKey (Api.localStorage b) = None ->
  Api.authorization b = None.
Proof. intros Hg. unfold Api.authorization. now rewrite Hg. Qed.

(** X11. After a successful [login] with a non-empty token the
    provider is authenticated for the given e-mail, the token is in storage
    and every request from then on carries [Authorization: Bearer <token>].
    A reload keeps the page authenticated, from the stored token, but not
    the user, which is not stored. A failed [login] leaves the page as the
    response interceptor leaves it on that rejection: unchanged, unless the
    status is 401. *)
Theorem login_authorizes (p : Auth.Page) (email token : JS.str) (e : Api.AxiosError) :
  token <> [] ->
  let p' := AuthPage.login email (inl token) p in
  Auth.isAuthenticated (Auth.auth p') = true /\
  Auth.user (Auth.auth p') = Some {| Auth.email := email |} /\
  Api.authorization (Auth.browser p') = Some (js "Bearer " ++ token) /\
  Auth.isAuthenticated (Auth.auth (AuthPage.reload p')) = true /\
  Auth.user (Auth.auth (AuthPage.reload p')) = None /\
  Api.authorization (Auth.browser (AuthPage.reload p')) = Some (js "Bearer " ++ token) /\
  AuthPage.login email (inr e) p = Auth.rejected e p /\
  (Api.isUnauthorized e = false -> AuthPage.login email (inr e) p = p).
Proof.
  intros Ht p'. subst p'.
  assert (Hfailed : AuthPage.login email (inr e) p = Auth.rejected e p).
  { unfold AuthPage.login. cbn [Auth.login fst snd].
    destruct (Auth.rejected e p) as [[storage path loads] a]. reflexivity. }
  unfold AuthPage.login at 1 2 3 4 5 6, AuthPage.reload, Auth.load.
  cbn [Auth.login fst snd Auth.browser Auth.auth Auth.isAuthenticated Auth.user
       AuthPage.withStorage Api.localStorage].
  assert (Hg : Api.getItem Api.tokenKey
                 (Api.setItem Api.tokenKey token (Api.localStorage (Auth.browser p))) =
               Some token) by apply getItem_setItem.
  split; [reflexivity |]. split; [reflexivity |].
  split; [now apply authorization_with_token |].
  split; [| split; [reflexivity | split; [| split]]].
  - unfold Auth.mounted. rewrite Hg. destruct token; [congruence | reflexivity].
  - now apply authorization_with_token.
  - exact Hfailed.
  - intros H401. rewrite Hfailed. unfold Auth.rejected, Api.onResponseError.
    rewrite H401, Nat.eqb_refl. now destruct p.
Qed.

(** X12. [logout] revokes everything, whatever the state before: the
    provider is unauthenticated with no user, the token is gone from
    storage, requests carry no [Authorization] header, a reload stays
    unauthenticated, and the other entries of storage (the session
    identifier, the language) are left as they are. *)
Theorem logout_revokes (p : Auth.Page) (k : JS.str) :
  let p' := AuthPage.logout p in
  Auth.isAuthenticated (Auth.auth p') = false /\
  Auth.user (Auth.auth p') = None /\
  Api.getItem Api.tokenKey (Api.localStorage (Auth.browser p')) = None /\
  Api.authorization (Auth.browser p') = None /\
  Auth.isAuthenticated (Auth.auth (AuthPage.reload p')) = false /\
  (k <> Api.tokenKey ->
     Api.getItem k (Api.localStorage (Auth.browser p')) =
     Api.getItem k (Api.localStorage (Auth.browser p))).
Proof.
  intros p'. subst p'. unfold AuthPage.logout, AuthPage.reload, Auth.load.
  cbn [Auth.logout fst snd Auth.browser Auth.auth Auth.isAuthenticated Auth.user
       AuthPage.withStorage Api.localStorage].
  pose proof (getItem_removeItem Api.tokenKey (Api.localStorage (Auth.browser p)))
    as Hgone.
  split; [reflexivity |]. split; [reflexivity |]. split; [exact Hgone |].
  split; [apply authorization_without_token; exact Hgone |].
  split; [now apply mounted_without_token |].
  intros Hk. now apply getItem_removeItem_other.
Qed.

End AuthFacts.

Lemma login_authorizes_witness :
  let p' := AuthPage.login (js "admin@example.org") (inl (js "eyJhbGciOiJIUzI1NiJ9.admin")) signedOut in
  Auth.isAuthenticated (Auth.auth signedOut) = false /\
  Api.authorization (Auth.browser signedOut) = None /\
  Auth.isAuthenticated (Auth.auth p') = true /\
  Api.authorization (Auth.browser p') = Some (js "Bearer eyJhbGciOiJIUzI1NiJ9.admin") /\
  Auth.user (Auth.auth (AuthPage.reload p')) = None /\
  AuthPage.login (js "admin@example.org") (inr (failure 500)) signedOut = signedOut.
Proof.
  cbv zeta.
  destruct (@login_authorizes signedOut (js "admin@example.org")
              (js "eyJhbGciOiJIUzI1NiJ9.admin") (failure 500) ltac:(apply lit_cons))
    as [Hauth [_ [Hhdr [_ [Huser [_ [_ Hfailed]]]]]]].
  split; [reflexivity |]. split; [reflexivity |]. split; [exact Hauth |].
  split; [exact Hhdr |]. split; [exact Huser | exact (Hfailed eq_refl)].
Defined.

(** A [login] refused with a 401 on an admin page that still holds a
    token: the interceptor removes the token and sends the browser to the
    login page, where the provider starts unauthenticated. *)
Example login_refused_with_401 :
  let p' := AuthPage.login (js "admin@example.org") (inr (failure 401)) signedInAtAdmin in
  Auth.isAuthenticated (Auth.auth signedInAtAdmin) = true /\
  Api.getItem Api.tokenKey (Api.localStorage (Auth.browser p')) = None /\
  Api.pathname (Auth.browser p') = js "/admin/login" /\
  Auth.isAuthenticated (Auth.auth p') = false.
Proof. repeat split. Qed.

(** ** The feedback form *)

Section FeedbackForm.

Local Open Scope Z_scope.

Lemma star_drawn (star : Z) :
  existsb (Z.eqb star) FeedbackModal.stars = true -> 1 <= star <= 5.
Proof.
  unfold FeedbackModal.stars. cbn [existsb]. intros H.
  repeat (apply orb_true_iff in H; destruct H as [H | H];
          [apply Z.eqb_eq in H; lia |]).
  discriminate.
Qed.

Lemma use_ratings (acts : list FeedbackModal.Action) :
  forall s : FeedbackModal.State,
    0 <= FeedbackModal.rating s <= 5 ->
    let r := FeedbackModal.use acts s in
    Forall (fun sent => 1 <= fst sent <= 5) (snd r) /\
    (List.length (snd r) <=
     List.length (filter FeedbackModal.isStar acts) +
     (if (FeedbackModal.rating s =? 0)%Z then 0 else 1))%nat.
Proof.
  induction acts as [|a acts IH]; intros s Hs; cbn [FeedbackModal.use].
  - simpl. split; [constructor | lia].
  - destruct (FeedbackModal.offered a s) eqn:Hoff.
    + destruct a as [star | text |]; cbn [FeedbackModal.act fst snd filter FeedbackModal.isStar] in *.
      * apply star_drawn in Hoff.
        destruct (IH {| FeedbackModal.rating := star;
                        FeedbackModal.feedback := FeedbackModal.feedback s |})
          as [Hall Hlen]; [simpl; lia |].
        split; [exact Hall |]. cbn [FeedbackModal.rating] in Hlen.
        destruct (Z.eqb_spec star 0); [lia |].
        simpl List.length. destruct (FeedbackModal.rating s =? 0); lia.
      * destruct (IH {| FeedbackModal.rating := FeedbackModal.rating s;
                        FeedbackModal.feedback := text |})
          as [Hall Hlen]; [exact Hs |].
        split; [exact Hall | exact Hlen].
      * unfold FeedbackModal.offered, FeedbackModal.submitDisabled in Hoff.
        destruct (Z.eqb_spec (FeedbackModal.rating s) 0) as [|Hne];
          [simpl in Hoff; discriminate |].
        destruct (IH FeedbackModal.initial) as [Hall Hlen]; [simpl; lia |].
        cbn [FeedbackModal.handleSubmit fst snd].
        split; [constructor; [simpl; lia | exact Hall] |].
        simpl in Hlen |- *. lia.
    + destruct (IH s Hs) as [Hall Hlen]. split; [exact Hall |].
      destruct a; simpl; lia.
Qed.

(** X13. Through the buttons of the feedback form, every rating
    passed to [onSubmit] is one of the five stars, 1 to 5: the submit
    button is disabled while the rating is 0, and submitting resets the
    rating to 0, so that each submission needs a star clicked since the
    form was opened or last submitted. *)
Theorem feedback_form_ratings (acts : list FeedbackModal.Action) :
  let r := FeedbackModal.use acts FeedbackModal.initial in
  Forall (fun sent => 1 <= fst sent <= 5) (snd r) /\
  (List.length (snd r) <= List.length (filter FeedbackModal.isStar acts))%nat.
Proof.
  intros r. destruct (@use_ratings acts FeedbackModal.initial) as [Hall Hlen];
    [simpl; lia |].
  split; [exact Hall |]. simpl in Hlen. subst r. lia.
Qed.

End FeedbackForm.

(** ** More on white space *)

Section Trim.

(** The string is empty or starts with something else than white
    space. *)
Let headOk (s : JS.str) : Prop :=
  match s with
  | [] => True
  | c :: _ => JS.isWhiteSpace c = false
  end.

Lemma trimStart_headOk (s : JS.str) : headOk (JS.trimStart s).
Proof.
  induction s as [|c s IH]; simpl; [exact I |].
  destruct (JS.isWhiteSpace c) eqn:Hc; [exact IH | exact Hc].
Qed.

Lemma trimStart_fixed (s : JS.str) : headOk s -> JS.trimStart s = s.
Proof.
  destruct s as [|c s]; simpl; [reflexivity |]. now intros ->.
Qed.

Lemma trimStart_suffix (s : JS.str) : exists ws, s = ws ++ JS.trimStart s.
Proof.
  induction s as [|c s [ws IH]]; simpl.
  - now exists [].
  - destruct (JS.isWhiteSpace c).
    + exists (c :: ws). simpl. now rewrite <- IH.
    + now exists [].
Qed.

Lemma headOk_prefix (a b : JS.str) : a <> [] -> headOk (a ++ b) -> headOk a.
Proof. destruct a; [congruence | auto]. Qed.

Lemma trimEnd_headOk (t : JS.str) : headOk t -> headOk (JS.trimEnd t).
Proof.
  intros Ht. unfold JS.trimEnd.
  destruct (trimStart_suffix (rev t)) as [ws Hws].
  apply (f_equal (@rev N)) in Hws. rewrite rev_involutive, rev_app_distr in Hws.
  destruct (rev (JS.trimStart (rev t))) as [|c u] eqn:Hu; [exact I |].
  rewrite Hws in Ht. exact Ht.
Qed.

Lemma trim_idempotent (s : JS.str) : JS.trim (JS.trim s) = JS.trim s.
Proof.
  unfold JS.trim at 1.
  rewrite trimStart_fixed.
  - unfold JS.trim, JS.trimEnd. rewrite rev_involutive.
    rewrite (trimStart_fixed _ (trimStart_headOk _)). reflexivity.
  - apply trimEnd_headOk, trimStart_headOk.
Qed.

End Trim.

Lemma labels_trimmed (l : Language.Locale) :
  let tr := Language.translations l in
  Forall (fun label => label <> [] /\ JS.trim label = label)
    [Language.quick_eitc_eligibility tr; Language.quick_eitc_amount tr;
     Language.quick_requirements tr].
Proof.
  destruct l; repeat constructor; try discriminate; vm_compute; reflexivity.
Qed.

(** ** More on the conversation *)

Section Requests.

Local Open Scope Z_scope.

(** What an event adds to the chat requests sent: nothing, or one
    well-formed request. *)
Lemma step_sends (e : App.Event) (a : App.State) :
  exists new,
    Chat.chatRequests (App.chat (App.step e a)) =
      Chat.chatRequests (App.chat a) ++ new /\
    Forall (Screen.wellFormed (Session.sessionId (App.session a))) new.
Proof.
  assert (Hnone : exists new,
             Chat.chatRequests (App.chat a) = Chat.chatRequests (App.chat a) ++ new /\
             Forall (Screen.wellFormed (Session.sessionId (App.session a))) new).
  { exists []. rewrite app_nil_r. split; [reflexivity | constructor]. }
  destruct e; simpl; rewrite ?chat_chatMutated, ?chat_feedbackMutated; simpl;
    try exact Hnone.
  - unfold App.selectLanguage. destruct (Language.sameLocale _ _); exact Hnone.
  - unfold Chat.handleSendMessage.
    destruct (JS.truthy (JS.trim (Chat.inputMessage (App.chat a)))) eqn:Htext;
      [| exact Hnone].
    destruct (Chat.isLoading (App.chat a)); [exact Hnone |].
    simpl. eexists. split; [reflexivity |].
    constructor; [| constructor]. unfold Screen.wellFormed. simpl.
    split; [destruct (JS.trim _); [discriminate | congruence] |].
    split; [apply trim_idempotent | reflexivity].
  - destruct (Chat.isLoading _); exact Hnone.
  - destruct (Chat.isLoading _); exact Hnone.
  - destruct action; exact Hnone.
  - unfold Chat.handleFeedback. destruct (Chat.truthyRating _); exact Hnone.
  - unfold App.feedbackSettled. destruct (nth_error _ _); exact Hnone.
  - unfold App.feedbackSettled. destruct (nth_error _ _); exact Hnone.
Qed.

(** X15. Every chat request the page ever sends carries a message
    that is not empty and has no white space at either end (the input,
    trimmed), and the identifier of the session. *)
Theorem chat_requests_well_formed
  (session : Session.State) (language : Language.Locale) (iso : JS.str)
  (es : list App.Event) :
  Forall (Screen.wellFormed (Session.sessionId session))
    (Chat.chatRequests (App.chat (App.run es (App.mounted session language iso)))).
Proof.
  assert (Hrun : forall es a,
             Forall (Screen.wellFormed (Session.sessionId (App.session a)))
               (Chat.chatRequests (App.chat a)) ->
             Forall (Screen.wellFormed (Session.sessionId (App.session a)))
               (Chat.chatRequests (App.chat (App.run es a)))).
  { clear es. induction es as [|e es IH]; intros a Ha; [exact Ha |].
    change (App.run (e :: es) a) with (App.run es (App.step e a)).
    rewrite <- (step_session e a). apply IH. rewrite step_session.
    destruct (step_sends e a) as [new [-> Hnew]].
    apply Forall_app. split; assumption. }
  apply (Hrun es (App.mounted session language iso)). constructor.
Qed.

(** With nothing but white space in the input, an event that does not
    write the input sends no chat request and leaves the input as it is. *)
Lemma step_blank (e : App.Event) (a : App.State) :
  Screen.writesInput e = false ->
  JS.blank (Chat.inputMessage (App.chat a)) ->
  Chat.chatRequests (App.chat (App.step e a)) = Chat.chatRequests (App.chat a) /\
  Chat.inputMessage (App.chat (App.step e a)) = Chat.inputMessage (App.chat a).
Proof.
  intros He Hblank. destruct e; simpl in He; try discriminate;
    try rewrite step_submit_refused by (left; exact Hblank); simpl;
    rewrite ?chat_feedbackMutated; simpl; try (split; reflexivity).
  - unfold App.selectLanguage. destruct (Language.sameLocale _ _); split; reflexivity.
  - destruct (Chat.isLoading _); split; reflexivity.
  - destruct (Chat.isLoading _); split; reflexivity.
  - unfold Chat.handleFeedback. destruct (Chat.truthyRating _); split; reflexivity.
  - unfold App.feedbackSettled. destruct (nth_error _ _); split; reflexivity.
  - unfold App.feedbackSettled. destruct (nth_error _ _); split; reflexivity.
Qed.

(** X16. One text, one request. An accepted submission empties the
    input; and while the input holds nothing but white space, whatever
    happens on the page short of typing or a quick action (submitting
    again, before or after the reply, included) sends no chat request and
    leaves the input as it is. *)
Theorem one_text_one_request (a : App.State) (now : Z) (iso : JS.str)
  (es : list App.Event) :
  (Chat.isLoading (App.chat a) = false ->
   ~ JS.blank (Chat.inputMessage (App.chat a)) ->
   Chat.inputMessage (App.chat (App.step (App.Submit now iso) a)) = []) /\
  (JS.blank (Chat.inputMessage (App.chat a)) ->
   Forall (fun e => Screen.writesInput e = false) es ->
   Chat.chatRequests (App.chat (App.run es a)) = Chat.chatRequests (App.chat a) /\
   Chat.inputMessage (App.chat (App.run es a)) = Chat.inputMessage (App.chat a)).
Proof.
  split.
  - intros Hidle Htext. now rewrite step_submit_accepted.
  - intros Hblank Hes. revert a Hblank.
    induction Hes as [|e es He _ IH]; intros a Hblank; [split; reflexivity |].
    change (App.run (e :: es) a) with (App.run es (App.step e a)).
    destruct (step_blank e a He Hblank) as [Hr Hi].
    destruct (IH (App.step e a)) as [Hr' Hi']; [now rewrite Hi |].
    now rewrite Hr', Hi', Hr, Hi.
Qed.

(** X14. A quick action never sends anything and never touches the
    log. The three question shortcuts put the label of the button, as the
    string table of the language in use has it, into the input, and a
    submission that follows (with no request in flight) sends exactly that
    label; the English questions written in the handler are used for no
    language of the table. The calculator shortcut, and an unknown one,
    leave the input as it is. *)
Theorem quick_action_then_submit
  (a : App.State) (action : Chat.Action) (now : Z) (iso : JS.str) :
  let tr := Language.translations (App.language a) in
  let label :=
    match action with
    | Chat.eitc_eligibility => Some (Language.quick_eitc_eligibility tr)
    | Chat.eitc_amount => Some (Language.quick_eitc_amount tr)
    | Chat.requirements => Some (Language.quick_requirements tr)
    | _ => None
    end in
  let a1 := App.step (App.QuickAction action) a in
  let a2 := App.step (App.Submit now iso) a1 in
  App.log a1 = App.log a /\
  Chat.chatRequests (App.chat a1) = Chat.chatRequests (App.chat a) /\
  Chat.inputMessage (App.chat a1) =
    match label with
    | Some text => text
    | None => Chat.inputMessage (App.chat a)
    end /\
  (Chat.isLoading (App.chat a) = false ->
   forall text, label = Some text ->
     Chat.chatRequests (App.chat a2) =
       Chat.chatRequests (App.chat a) ++
       [{| Chat.message := text;
           Chat.session_id := Session.sessionId (App.session a);
           Chat.language := Language.code (App.language a) |}] /\
     List.map Chat.content (App.log a2) = List.map Chat.content (App.log a) ++ [text]).
Proof.
  intros tr label a1 a2.
  pose proof (labels_trimmed (App.language a)) as Hlabels. cbv zeta in Hlabels.
  fold tr in Hlabels.
  inversion Hlabels as [|? ? [He1 He2] Hl1]; subst.
  inversion Hl1 as [|? ? [Ha1 Ha2] Hl2]; subst.
  inversion Hl2 as [|? ? [Hr1 Hr2] _]; subst.
  assert (Hsubmit : forall text,
             text <> [] -> JS.trim text = text ->
             Chat.isLoading (App.chat a) = false ->
             let s1 := Chat.setInputMessage text (App.chat a) in
             let s2 := Chat.handleSendMessage (App.context a) now iso s1 in
             Chat.chatRequests s2 =
               Chat.chatRequests (App.chat a) ++
               [{| Chat.message := text;
                   Chat.session_id := Session.sessionId (App.session a);
                   Chat.language := Language.code (App.language a) |}] /\
             List.map Chat.content (Chat.messages s2) =
               List.map Chat.content (App.log a) ++ [text]).
  { intros text Hne Htrim Hidle s1 s2. subst s2.
    rewrite handleSendMessage_accepted.
    - subst s1. unfold App.log. simpl. rewrite map_app. simpl. rewrite Htrim.
      split; reflexivity.
    - subst s1. simpl. rewrite <- trim_nil_iff_blank, Htrim. exact Hne.
    - exact Hidle. }
  assert (Hor : forall text fallback, text <> [] -> JS.or text fallback = text).
  { intros [|c text] fallback H; [congruence | reflexivity]. }
  subst a1 a2 label.
  destruct action; unfold App.log; simpl;
    rewrite ?chat_chatMutated; simpl;
    rewrite ?Hor by assumption;
    (split; [reflexivity |]); (split; [reflexivity |]); (split; [reflexivity |]);
    intros Hidle text Htext; try discriminate; injection Htext as <-;
    now apply Hsubmit.
Qed.

End Requests.

Section Dialogue.

Local Open Scope Z_scope.

(** The log is the welcome message followed by questions and replies
    in turn, the last question being open exactly when a request is in
    flight. *)
Let inTurn (a : App.State) : Prop :=
  exists w rest,
    App.log a = w :: rest /\
    Chat.isWelcome w = true /\
    Screen.turns rest (Chat.isLoading (App.chat a)).

Lemma step_inTurn (e : App.Event) (a : App.State) :
  App.isLanguageSelection e = false -> inTurn a -> inTurn (App.step e a).
Proof.
  intros He [w [rest [Hlog [Hw Hturns]]]]. unfold inTurn, App.log in *.
  destruct e; simpl in He; try discriminate; simpl;
    rewrite ?chat_chatMutated, ?chat_feedbackMutated; simpl;
    try (exists w, rest; repeat split; assumption).
  - unfold Chat.handleSendMessage.
    destruct (negb (JS.truthy (JS.trim (Chat.inputMessage (App.chat a))))); simpl;
      [exists w, rest; repeat split; assumption |].
    destruct (Chat.isLoading (App.chat a)) eqn:Hbusy; simpl;
      [exists w, rest; rewrite Hbusy; repeat split; assumption |].
    exists w, (rest ++ [Chat.userMessage now iso (App.chat a)]).
    rewrite Hlog. repeat split; [exact Hw |].
    now apply Screen.turns_question.
  - destruct (Chat.isLoading (App.chat a)) eqn:Hbusy; simpl;
      [| exists w, rest; rewrite Hbusy; repeat split; assumption].
    exists w, (rest ++ [Chat.assistantMessage r now]).
    rewrite Hlog. repeat split; [exact Hw |].
    now apply Screen.turns_reply.
  - destruct (Chat.isLoading (App.chat a)) eqn:Hbusy; simpl;
      [| exists w, rest; rewrite Hbusy; repeat split; assumption].
    exists w, (rest ++ [Chat.errorMessage (App.chatCallbacks a) now iso]).
    rewrite Hlog. repeat split; [exact Hw |].
    now apply Screen.turns_reply.
  - destruct action; simpl; exists w, rest; repeat split; assumption.
  - unfold Chat.handleFeedback. destruct (Chat.truthyRating _); simpl;
      exists w, rest; repeat split; assumption.
  - unfold App.feedbackSettled. destruct (nth_error _ _); simpl;
      exists w, rest; repeat split; assumption.
  - unfold App.feedbackSettled. destruct (nth_error _ _); simpl;
      exists w, rest; repeat split; assumption.
Qed.

(** X17. As long as no language is selected, the log is the welcome
    message followed by user messages and assistant replies strictly in
    turn: every reply directly follows the user message it answers, no
    two user messages are adjacent, and the log ends with a user message
    still waiting for its reply exactly when a request is in flight. *)
Theorem dialogue_in_turn
  (session : Session.State) (language : Language.Locale) (iso : JS.str)
  (es : list App.Event) :
  Forall (fun e => App.isLanguageSelection e = false) es ->
  let a := App.run es (App.mounted session language iso) in
  exists w rest,
    App.log a = w :: rest /\
    Chat.isWelcome w = true /\
    Screen.turns rest (Chat.isLoading (App.chat a)).
Proof.
  intros Hes.
  assert (Hrun : forall a, inTurn a -> inTurn (App.run es a)).
  { induction Hes as [|e es He _ IH]; intros a Ha; [exact Ha |].
    change (App.run (e :: es) a) with (App.run es (App.step e a)).
    now apply IH, step_inTurn. }
  apply Hrun. unfold inTurn, App.log. simpl.
  eexists. exists []. repeat split. constructor.
Qed.

End Dialogue.

Lemma dialogue_in_turn_witness :
  let a := App.run (oneExchange ++ [App.TypeInput (js "And my spouse?");
                                    App.Submit 1736937060000 (js "2025-01-15T10:31:00.000Z")])
             home in
  List.map Chat.type (App.log a) =
    [Chat.assistant; Chat.user; Chat.assistant; Chat.user] /\
  Chat.isLoading (App.chat a) = true /\
  exists w rest,
    App.log a = w :: rest /\ Screen.turns rest true.
Proof.
  cbv zeta. split; [reflexivity |]. split; [reflexivity |].
  destruct (@dialogue_in_turn firstVisit Language.En (js "2025-01-15T10:29:00.000Z")
              (oneExchange ++ [App.TypeInput (js "And my spouse?");
                               App.Submit 1736937060000 (js "2025-01-15T10:31:00.000Z")])
              ltac:(repeat constructor))
    as [w [rest [Hlog [_ Hturns]]]].
  exists w, rest. split; [exact Hlog | exact Hturns].
Defined.

Section RatingButtons.

Local Open Scope Z_scope.

Lemma sameId_true (a b : Chat.MessageId) : Screen.sameId a b = true -> a = b.
Proof.
  destruct a as [s | n], b as [t | m]; simpl; try discriminate.
  - destruct (list_eq_dec N.eq_dec s t); [congruence | discriminate].
  - intros H. apply Z.eqb_eq in H. congruence.
Qed.

Lemma sameRating_true (a b : option Z) : Screen.sameRating a b = true -> a = b.
Proof.
  destruct a as [n|], b as [m|]; simpl; try discriminate; [| reflexivity].
  intros H. apply Z.eqb_eq in H. congruence.
Qed.

Lemma offered_rendered (messageId : Chat.MessageId) (rating : option Z)
  (a : App.State) :
  Screen.offered (App.Feedback messageId rating) a = true ->
  In (messageId, rating) (Chat.rendered (App.chat a)).
Proof.
  simpl. intros H. apply existsb_exists in H.
  destruct H as [[i r] [Hin Hsame]]. apply andb_true_iff in Hsame.
  destruct Hsame as [Hi Hr]. apply sameId_true in Hi. apply sameRating_true in Hr.
  simpl in Hi, Hr. now subst.
Qed.

Lemma feedbackButtons_rating (m : Chat.Message) (messageId : Chat.MessageId)
  (rating : option Z) :
  In (messageId, rating) (Chat.feedbackButtons m) ->
  rating = Some 5 \/ rating = Some 1.
Proof.
  unfold Chat.feedbackButtons.
  destruct (negb _ && negb _ && negb _); simpl; [| contradiction].
  intros [H | [H | []]]; injection H as _ <-; auto.
Qed.

(** Every message that is not the welcome message is identified by a
    number. *)
Let numbered (l : list Chat.Message) : Prop :=
  Forall (fun m => Chat.isWelcome m = false -> exists n, Chat.id m = Chat.IdNumber n) l.

Lemma step_numbered (e : App.Event) (a : App.State) :
  numbered (App.log a) -> numbered (App.log (App.step e a)).
Proof.
  unfold numbered, App.log. intros H.
  assert (Hadd : forall m, (exists n, Chat.id m = Chat.IdNumber n) ->
             Forall (fun m => Chat.isWelcome m = false ->
                              exists n, Chat.id m = Chat.IdNumber n)
               (Chat.messages (App.chat a) ++ [m])).
  { intros m Hm. apply Forall_app. split; [exact H |]. constructor; [auto | constructor]. }
  destruct e; simpl; rewrite ?chat_chatMutated, ?chat_feedbackMutated; simpl;
    try exact H.
  - unfold App.selectLanguage. destruct (Language.sameLocale _ _); [exact H |].
    simpl. constructor; [discriminate | constructor].
  - unfold Chat.handleSendMessage. destruct (negb _ || _); [exact H |].
    simpl. apply Hadd. eexists; reflexivity.
  - destruct (Chat.isLoading _); [| exact H]. simpl. apply Hadd. eexists; reflexivity.
  - destruct (Chat.isLoading _); [| exact H]. simpl. apply Hadd. eexists; reflexivity.
  - destruct action; exact H.
  - unfold Chat.handleFeedback. destruct (Chat.truthyRating _); exact H.
  - unfold App.feedbackSettled. destruct (nth_error _ _); exact H.
  - unfold App.feedbackSettled. destruct (nth_error _ _); exact H.
Qed.

(** What holds of every state the screen leads to. *)
Let kept (sessionId : JS.str) (a : App.State) : Prop :=
  Session.sessionId (App.session a) = sessionId /\
  Chat.showFeedback (App.chat a) = false /\
  numbered (App.log a) /\
  Forall (Screen.quick sessionId) (Chat.feedbackRequests (App.chat a)).

Lemma step_kept (sessionId : JS.str) (e : App.Event) (a : App.State) :
  Screen.offered e a = true -> kept sessionId a -> kept sessionId (App.step e a).
Proof.
  intros Hoff [Hsid [Hmodal [Hnum Hreq]]].
  split; [now rewrite step_session |].
  split; [| split; [now apply step_numbered |]].
  - destruct e; simpl in *; rewrite ?chat_chatMutated, ?chat_feedbackMutated;
      simpl; try exact Hmodal; try congruence.
    + unfold App.selectLanguage. destruct (Language.sameLocale _ _); exact Hmodal.
    + unfold Chat.handleSendMessage. destruct (negb _ || _); exact Hmodal.
    + destruct (Chat.isLoading _); exact Hmodal.
    + destruct (Chat.isLoading _); exact Hmodal.
    + destruct action; exact Hmodal.
    + pose proof (offered_rendered messageId rating a Hoff) as Hin.
      unfold Chat.rendered in Hin. apply in_flat_map in Hin.
      destruct Hin as [m [_ Hb]].
      destruct (feedbackButtons_eligible m messageId rating Hb) as [Ht _].
      unfold Chat.handleFeedback. rewrite Ht. exact Hmodal.
    + unfold App.feedbackSettled. destruct (nth_error _ _); [reflexivity | exact Hmodal].
    + unfold App.feedbackSettled. destruct (nth_error _ _); exact Hmodal.
  - destruct e; simpl in *; rewrite ?chat_chatMutated, ?chat_feedbackMutated;
      simpl; try exact Hreq; try congruence.
    + unfold App.selectLanguage. destruct (Language.sameLocale _ _); exact Hreq.
    + unfold Chat.handleSendMessage. destruct (negb _ || _); exact Hreq.
    + destruct (Chat.isLoading _); exact Hreq.
    + destruct (Chat.isLoading _); exact Hreq.
    + destruct action; exact Hreq.
    + pose proof (offered_rendered messageId rating a Hoff) as Hin.
      unfold Chat.rendered in Hin. apply in_flat_map in Hin.
      destruct Hin as [m [Hm Hb]].
      destruct (feedbackButtons_eligible m messageId rating Hb)
        as [Ht [Hid [_ [Hw _]]]].
      unfold Chat.handleFeedback. rewrite Ht. simpl.
      apply Forall_app. split; [exact Hreq |]. constructor; [| constructor].
      unfold Screen.quick. simpl.
      split; [reflexivity |].
      split; [exact (feedbackButtons_rating m messageId rating Hb) |].
      split; [exact Hsid |].
      unfold numbered in Hnum. rewrite Forall_forall in Hnum.
      destruct (Hnum m Hm Hw) as [n Hn]. exists n. congruence.
    + unfold App.feedbackSettled. destruct (nth_error _ _); exact Hreq.
    + unfold App.feedbackSettled. destruct (nth_error _ _); exact Hreq.
Qed.

(** X18. On the rendered page, feedback is only ever sent from a
    rating button: the detailed form never opens (no component calls
    [onFeedback] without a rating), and every feedback request sent has an
    empty text, a rating of 5 or 1, the identifier of the session, and the
    numeric identifier of a message, never ['welcome']. A rating button
    that is on screen belongs to a message of the log that is from the
    assistant and is neither the welcome message nor an error message. *)
Theorem rated_from_the_screen
  (session : Session.State) (language : Language.Locale) (iso : JS.str)
  (es : list App.Event) :
  let a := Screen.use es (App.mounted session language iso) in
  Chat.showFeedback (App.chat a) = false /\
  Forall (Screen.quick (Session.sessionId session))
    (Chat.feedbackRequests (App.chat a)) /\
  (forall messageId rating,
     Screen.offered (App.Feedback messageId rating) a = true ->
     exists m,
       In m (App.log a) /\
       Chat.id m = messageId /\
       Chat.type m = Chat.assistant /\
       Chat.isWelcome m = false /\
       Chat.isError m = false).
Proof.
  intros a.
  assert (Hrun : forall es a0,
             kept (Session.sessionId session) a0 ->
             kept (Session.sessionId session) (Screen.use es a0)).
  { clear. induction es as [|e es IH]; intros a0 Ha; [exact Ha |].
    unfold Screen.use. cbn [fold_left]. fold (Screen.use es).
    destruct (Screen.offered e a0) eqn:Hoff; apply IH; [| exact Ha].
    now apply step_kept. }
  destruct (Hrun es (App.mounted session language iso)) as [_ [Hmodal [_ Hreq]]].
  { unfold kept, numbered, App.log. simpl.
    repeat split; repeat constructor. discriminate. }
  fold a in Hmodal, Hreq.
  split; [exact Hmodal |]. split; [exact Hreq |].
  intros messageId rating Hoff. apply offered_rendered in Hoff.
  unfold Chat.rendered in Hoff. apply in_flat_map in Hoff.
  destruct Hoff as [m [Hm Hb]].
  destruct (feedbackButtons_eligible m messageId rating Hb) as [_ Hrest].
  exists m. split; assumption.
Qed.

End RatingButtons.

Section Identifiers.

Local Open Scope Z_scope.

Lemma stamps_app (l l' : list Chat.Message) :
  Screen.stamps (l ++ l') = Screen.stamps l ++ Screen.stamps l'.
Proof.
  induction l as [|m l IH]; simpl; [reflexivity |].
  destruct (Chat.id m); [exact IH | now rewrite IH].
Qed.

Lemma ascending_snoc (l : list Z) (x : Z) :
  Screen.ascending l -> Forall (fun m => m < x) l -> Screen.ascending (l ++ [x]).
Proof.
  induction l as [|n l IH]; simpl; intros Hl Hx.
  - split; constructor.
  - destruct Hl as [Hn Hl]. inversion Hx as [|? ? Hnx Hlx]; subst.
    split; [| now apply IH].
    apply Forall_app. split; [exact Hn |]. constructor; [exact Hnx | constructor].
Qed.

(** The identifiers in the log increase and are all below [bound]. *)
Let below (bound : Z) (l : list Chat.Message) : Prop :=
  Screen.ascending (Screen.stamps l) /\
  Forall (fun m => m < bound) (Screen.stamps l).

Lemma below_weaken (b b' : Z) (l : list Chat.Message) :
  b <= b' -> below b l -> below b' l.
Proof.
  intros Hb [Hasc Hall]. split; [exact Hasc |].
  eapply Forall_impl; [| exact Hall]. simpl. intros; lia.
Qed.

Lemma below_append (b x : Z) (l : list Chat.Message) (m : Chat.Message) :
  Chat.id m = Chat.IdNumber x ->
  b <= x ->
  below b l ->
  below (x + 1) (l ++ [m]).
Proof.
  intros Hid Hbx [Hasc Hall]. unfold below. rewrite stamps_app.
  simpl. rewrite Hid.
  assert (Hlt : Forall (fun n => n < x) (Screen.stamps l)).
  { eapply Forall_impl; [| exact Hall]. simpl. intros; lia. }
  split; [now apply ascending_snoc |].
  apply Forall_app. split.
  - eapply Forall_impl; [| exact Hlt]. simpl. intros; lia.
  - constructor; [lia | constructor].
Qed.

Lemma step_below (last : Z) (e : App.Event) (a : App.State) :
  below (last + 2) (App.log a) ->
  match Screen.reading e with
  | Some now => last + 2 <= now -> below (now + 2) (App.log (App.step e a))
  | None => below (last + 2) (App.log (App.step e a))
  end.
Proof.
  intros Ha. unfold App.log in *.
  destruct e; simpl Screen.reading; cbv iota;
    try exact Ha; try (intros Hnow); cbn [App.step];
    rewrite ?chat_chatMutated, ?chat_feedbackMutated;
    cbn [App.withChat App.chat App.feedbackMutated]; try exact Ha.
  - unfold App.selectLanguage. destruct (Language.sameLocale _ _); [exact Ha |].
    unfold below. simpl. repeat constructor.
  - unfold Chat.handleSendMessage.
    destruct (negb (JS.truthy (JS.trim (Chat.inputMessage (App.chat a)))) ||
              Chat.isLoading (App.chat a)).
    + apply (below_weaken (b := last + 2)); [lia | exact Ha].
    + apply (below_weaken (b := now + 1)); [lia |].
      apply (below_append (b := last + 2)); [reflexivity | exact Hnow | exact Ha].
  - destruct (Chat.isLoading (App.chat a)).
    + replace (now + 2) with (now + 1 + 1) by lia.
      apply (below_append (b := last + 2)); [reflexivity | lia | exact Ha].
    + apply (below_weaken (b := last + 2)); [lia | exact Ha].
  - destruct (Chat.isLoading (App.chat a)).
    + replace (now + 2) with (now + 1 + 1) by lia.
      apply (below_append (b := last + 2)); [reflexivity | lia | exact Ha].
    + apply (below_weaken (b := last + 2)); [lia | exact Ha].
  - destruct action; exact Ha.
  - unfold Chat.handleFeedback. destruct (Chat.truthyRating _); exact Ha.
  - unfold App.feedbackSettled. destruct (nth_error _ _); exact Ha.
  - unfold App.feedbackSettled. destruct (nth_error _ _); exact Ha.
Qed.

(** X19. If the successive readings of [Date.now()] taken on
    submitting and on settling are at least two milliseconds apart, the
    numeric identifiers in the log increase strictly, so no two messages
    share an identifier. (A question submitted one millisecond after a
    reply gets the identifier of that reply.) *)
Theorem message_ids_increase
  (session : Session.State) (language : Language.Locale) (iso : JS.str)
  (last : Z) (es : list App.Event) :
  Screen.apart last es ->
  Screen.ascending
    (Screen.stamps (App.log (App.run es (App.mounted session language iso)))).
Proof.
  intros Hes.
  assert (Hrun : forall es last a,
             Screen.apart last es -> below (last + 2) (App.log a) ->
             exists last', below (last' + 2) (App.log (App.run es a))).
  { clear. induction es as [|e es IH]; intros last a Hes Ha; [now exists last |].
    change (App.run (e :: es) a) with (App.run es (App.step e a)).
    pose proof (step_below last e a Ha) as Hstep.
    simpl in Hes. destruct (Screen.reading e) as [now|].
    - destruct Hes as [Hnow Hes]. exact (IH now _ Hes (Hstep Hnow)).
    - exact (IH last _ Hes Hstep). }
  destruct (Hrun es last (App.mounted session language iso) Hes) as [last' [H _]].
  - unfold below, App.log. simpl. repeat constructor.
  - exact H.
Qed.

End Identifiers.

Lemma message_ids_increase_witness :
  Screen.stamps (App.log talked) = [1736937000000; 1736937001501]%Z /\
  Screen.ascending (Screen.stamps (App.log talked)).
Proof.
  split; [reflexivity |].
  exact (@message_ids_increase firstVisit Language.En (js "2025-01-15T10:29:00.000Z")
           0%Z oneExchange ltac:(simpl; lia)).
Defined.

(** The condition is needed: one millisecond is not enough. *)
Example hasty_question_shares_identifier :
  Screen.stamps (App.log (App.run hasty home)) =
  [1736937000000; 1736937001501; 1736937001501]%Z.
Proof. reflexivity. Qed.

(** ** The string table *)


(** ** A 401 and a reload *)

(** X21. However a 401 leaves the provider, the next load of the page
    is unauthenticated and sends no [Authorization] header: the token is
    gone from storage, and the provider derives its state from the token
    alone. *)
Theorem unauthorized_then_reload (error : Api.AxiosError) (p : Auth.Page) :
  Api.isUnauthorized error = true ->
  let p' := AuthPage.reload (Auth.rejected error p) in
  Auth.isAuthenticated (Auth.auth p') = false /\
  Auth.user (Auth.auth p') = None /\
  Api.authorization (Auth.browser p') = None.
Proof.
  intros H401 p'.
  assert (Hgone : Api.getItem Api.tokenKey
                    (Api.localStorage (Auth.browser (Auth.rejected error p))) = None).
  { unfold Auth.rejected, Api.onResponseError. rewrite H401.
    destruct (JS.startsWith _ _); cbn [Api.loads];
      destruct (Nat.eqb _ _); apply getItem_removeItem. }
  subst p'. unfold AuthPage.reload, Auth.load. cbn [Auth.auth Auth.browser].
  split; [now apply mounted_without_token |]. split; [reflexivity |].
  now apply authorization_without_token.
Qed.

Lemma unauthorized_then_reload_witness :
  let p := Auth.rejected (failure 401) signedInAtHome in
  Auth.isAuthenticated (Auth.auth p) = true /\
  Auth.isAuthenticated (Auth.auth (AuthPage.reload p)) = false.
Proof.
  split; [reflexivity |].
  exact (proj1 (@unauthorized_then_reload (failure 401) signedInAtHome eq_refl)).
Defined.

(** ** A language selected while a request is in flight *)

Section InFlight.

Local Open Scope Z_scope.

(** X22. When the other language is picked while a request is in
    flight, the question just asked leaves the log with everything else,
    the request stays in flight, and its settlement still appends the
    reply: the log is then the new welcome message followed by the reply
    alone. An error reply, and the toast that goes with it, are worded in
    the language in which the question was submitted, not in the one then
    in use. *)
Theorem language_selected_in_flight
  (a : App.State) (now : Z) (iso iso' : JS.str) (picked : Language.Locale) :
  Chat.isLoading (App.chat a) = false ->
  ~ JS.blank (Chat.inputMessage (App.chat a)) ->
  Language.sameLocale picked (App.language a) = false ->
  let a1 := App.step (App.Submit now iso) a in
  let a2 := App.step (App.SelectLanguage picked iso') a1 in
  let c := {| Chat.ctxSessionId := Session.sessionId (App.session a);
              Chat.ctxLanguage := picked |} in
  let submitted := Language.translations (App.language a) in
  App.log a1 = App.log a ++ [Chat.userMessage now iso (App.chat a)] /\
  App.log a2 = [Chat.welcomeMessage c iso'] /\
  App.language a2 = picked /\
  Chat.isLoading (App.chat a2) = true /\
  (forall r now',
     App.log (App.step (App.ChatResolved r now') a2) =
     [Chat.welcomeMessage c iso'; Chat.assistantMessage r now']) /\
  (forall now' iso'',
     let a3 := App.step (App.ChatRejected now' iso'') a2 in
     let reply := Chat.errorMessage (App.context a) now' iso'' in
     App.log a3 = [Chat.welcomeMessage c iso'; reply] /\
     Chat.content reply = Language.error_response submitted /\
     Chat.toasts (App.chat a3) =
       Chat.toasts (App.chat a) ++
       [Chat.ToastError (Language.error_message submitted)]).
Proof.
  intros Hidle Htext Hother a1 a2 c submitted.
  assert (H1 : App.log a1 = App.log a ++ [Chat.userMessage now iso (App.chat a)] /\
               Chat.isLoading (App.chat a1) = true /\
               App.language a1 = App.language a /\
               App.session a1 = App.session a /\
               App.chatCallbacks a1 = App.context a /\
               Chat.toasts (App.chat a1) = Chat.toasts (App.chat a)).
  { subst a1. rewrite step_submit_accepted by assumption.
    unfold App.log. simpl. repeat split. }
  destruct H1 as [Hlog1 [Hbusy1 [Hlang1 [Hsess1 [Hheld1 Htoasts1]]]]].
  assert (H2 : a2 =
               App.withChat (fun c => Chat.welcomeEffect c iso')
                 {| App.chat := App.chat a1;
                    App.language := picked;
                    App.session := App.session a1;
                    App.chatCallbacks := App.chatCallbacks a1;
                    App.feedbackCallbacks := App.feedbackCallbacks a1 |}).
  { subst a2. cbn [App.step]. unfold App.selectLanguage.
    now rewrite Hlang1, Hother. }
  split; [exact Hlog1 |].
  assert (Hlog2 : App.log a2 = [Chat.welcomeMessage c iso']).
  { rewrite H2. unfold App.log, App.withChat, App.context.
    cbn [App.chat App.session App.language Chat.welcomeEffect Chat.setMessages
         Chat.messages].
    now rewrite Hsess1. }
  assert (Hbusy2 : Chat.isLoading (App.chat a2) = true).
  { rewrite H2. simpl. exact Hbusy1. }
  assert (Hheld2 : App.chatCallbacks a2 = App.context a).
  { rewrite H2. simpl. exact Hheld1. }
  assert (Htoasts2 : Chat.toasts (App.chat a2) = Chat.toasts (App.chat a)).
  { rewrite H2. simpl. exact Htoasts1. }
  split; [exact Hlog2 |]. split; [now rewrite H2 |]. split; [exact Hbusy2 |]. split.
  - intros r now'. unfold App.log in *. simpl. rewrite Hbusy2. simpl.
    now rewrite Hlog2.
  - intros now' iso'' a3 reply. subst a3 reply submitted.
    unfold App.log in *. simpl. rewrite Hbusy2. simpl.
    rewrite Hlog2, Hheld2, Htoasts2.
    split; [reflexivity |]. unfold Chat.ctxTranslations. simpl.
    destruct (App.language a); split; reflexivity.
Qed.

End InFlight.

Lemma language_selected_in_flight_witness :
  let a2 :=
    App.step (App.SelectLanguage Language.Es (js "2025-01-15T10:30:00.500Z"))
      (App.step (App.Submit 1736937000000 (js "2025-01-15T10:30:00.000Z")) typed) in
  let a3 := App.step (App.ChatRejected 1736937001500 (js "2025-01-15T10:30:01.500Z")) a2 in
  List.map Chat.type (App.log (App.step (App.ChatResolved answer 1736937001500) a2)) =
    [Chat.assistant; Chat.assistant] /\
  List.map Chat.isWelcome (App.log (App.step (App.ChatResolved answer 1736937001500) a2)) =
    [true; false] /\
  App.language a2 = Language.Es /\
  List.map Chat.content (App.log a3) =
    [Language.welcome_message Language.es; Language.error_response Language.en] /\
  Chat.toasts (App.chat a3) = [Chat.ToastError (Language.error_message Language.en)].
Proof.
  cbv zeta.
  assert (Htext : ~ JS.blank (Chat.inputMessage (App.chat typed))).
  { apply truthy_trim. reflexivity. }
  destruct (@language_selected_in_flight typed 1736937000000
              (js "2025-01-15T10:30:00.000Z")
              (js "2025-01-15T10:30:00.500Z") Language.Es
              eq_refl Htext eq_refl)
    as [_ [_ [Hlang [_ [Hok Hko]]]]].
  destruct (Hko 1736937001500%Z (js "2025-01-15T10:30:01.500Z"))
    as [Hlog [_ Htoasts]].
  rewrite (Hok answer 1736937001500%Z), Hlog, Htoasts.
  split; [reflexivity |]. split; [reflexivity |]. split; [exact Hlang |].
  split; reflexivity.
Defined.

(** ** Shortcuts and resubmission, on the home page *)

Lemma quick_action_then_submit_witness :
  let a2 :=
    App.step (App.Submit 1736937000000 (js "2025-01-15T10:30:00.000Z"))
      (App.step (App.QuickAction Chat.eitc_eligibility) home) in
  List.map Chat.message (Chat.chatRequests (App.chat a2)) = [js "EITC Eligibility"].
Proof.
  cbv zeta.
  destruct (@quick_action_then_submit home Chat.eitc_eligibility 1736937000000
              (js "2025-01-15T10:30:00.000Z"))
    as [_ [_ [_ Hsent]]].
  destruct (Hsent eq_refl (js "EITC Eligibility") eq_refl) as [Hreq _].
  rewrite Hreq. reflexivity.
Defined.

Lemma one_text_one_request_witness :
  Chat.inputMessage (App.chat talked) = [] /\
  Chat.chatRequests
    (App.chat
       (App.run [App.Submit 1736937002000 (js "2025-01-15T10:30:02.000Z");
                 App.Submit 1736937002100 (js "2025-01-15T10:30:02.100Z")] talked)) =
  Chat.chatRequests (App.chat talked).
Proof.
  split; [reflexivity |].
  exact (proj1 (proj2 (@one_text_one_request talked 0%Z []
                         [App.Submit 1736937002000 (js "2025-01-15T10:30:02.000Z");
                          App.Submit 1736937002100 (js "2025-01-15T10:30:02.100Z")])
                  ltac:(constructor) ltac:(repeat constructor))).
Defined.
